(** * The analysis core of [python_service.py]

    A shallow embedding of the pure analysis functions of
    [examples/phase3_advanced_project/python_service.py]
    ([analyze_code_structure], [analyze_python_code], [analyze_go_code],
    [extract_design_patterns], [calculate_complexity_score] and
    [generate_cross_language_insights]) together with the Python built-ins
    they call, and the properties the specification states about them.

    Conventions.
    - A Python [str] is a [string]; a character is a code point below 256,
      read as Latin-1.
    - A Python [int] is a [Z]; a Python [float] is a binary64 [float].
    - A Python [dict] with string keys is a [gmap string value].
    - A call that may raise returns a [result]. *)

From Stdlib Require Import ZArith NArith Ascii String List Bool Lia.
From Stdlib Require Import Floats.PrimFloat Floats.FloatOps Floats.SpecFloat.
From Stdlib Require Import DecimalString DecimalZ.
From stdpp Require Import base option gmap strings list sorting.

Set Warnings "-inexact-float,-clear-no-such-hyp".

Local Open Scope Z_scope.

(** ** Python strings *)

Module PyStr.

(** The line separator ["\n"]. *)
Definition LF : ascii := ascii_of_nat 10.

(** [str.isspace] on one character, the predicate [str.strip()] and
    [str.split()] share: TAB, LF, VT, FF, CR, FS, GS, RS, US, SPACE, NEL
    and NBSP. *)
Definition isspace (c : ascii) : bool :=
  let n := N_of_ascii c in
  ((9 <=? n) && (n <=? 13) || (28 <=? n) && (n <=? 32)
   || (n =? 133) || (n =? 160))%N.

(** [all(c.isspace() for c in s)]. *)
Fixpoint all_space (s : string) : bool :=
  match s with
  | EmptyString => true
  | String a s' => isspace a && all_space s'
  end.

(** [s.lstrip()]. *)
Fixpoint lstrip (s : string) : string :=
  match s with
  | EmptyString => EmptyString
  | String a s' => if isspace a then lstrip s' else s
  end.

(** [s.rstrip()]. *)
Fixpoint rstrip (s : string) : string :=
  match s with
  | EmptyString => EmptyString
  | String a s' =>
      match rstrip s' with
      | EmptyString => if isspace a then EmptyString else String a EmptyString
      | r => String a r
      end
  end.

(** [s.strip()]. *)
Definition strip (s : string) : string := rstrip (lstrip s).

(** [s.startswith(prefix)]. *)
Fixpoint startswith (s prefix : string) {struct prefix} : bool :=
  match prefix with
  | EmptyString => true
  | String a p =>
      match s with
      | EmptyString => false
      | String b t => Ascii.eqb a b && startswith t p
      end
  end.

(** [needle in s]. *)
Fixpoint contains (s needle : string) {struct s} : bool :=
  startswith s needle
  || match s with
     | EmptyString => false
     | String _ t => contains t needle
     end.

(** [s.split(c)] for a one-character separator [c]. *)
Fixpoint split_char (s : string) (c : ascii) : list string :=
  match s with
  | EmptyString => [EmptyString]
  | String a s' =>
      if Ascii.eqb a c then EmptyString :: split_char s' c
      else match split_char s' c with
           | p :: ps => String a p :: ps
           | [] => [String a EmptyString]
           end
  end.

(** [s.split()]: the maximal runs of non-whitespace characters. *)
Fixpoint split (s : string) : list string :=
  match s with
  | EmptyString => []
  | String a s' =>
      if isspace a then split s'
      else match s' with
           | EmptyString => [String a EmptyString]
           | String b _ =>
               if isspace b then String a EmptyString :: split s'
               else match split s' with
                    | t :: ts => String a t :: ts
                    | [] => [String a EmptyString]
                    end
           end
  end.

(** [c.lower()] on a Latin-1 character: [A-Z] and the accented capitals
    U+00C0..U+00DE, the multiplication sign U+00D7 apart. *)
Definition lower_char (c : ascii) : ascii :=
  let n := N_of_ascii c in
  if ((65 <=? n) && (n <=? 90)
      || (192 <=? n) && (n <=? 222) && negb (n =? 215))%N
  then ascii_of_N (n + 32) else c.

(** [s.lower()]. *)
Fixpoint lower (s : string) : string :=
  match s with
  | EmptyString => EmptyString
  | String a s' => String (lower_char a) (lower s')
  end.

(** [sub] occurs in [s]: the meaning of Python's [sub in s]. *)
Definition occurs_in (sub s : string) : Prop :=
  ∃ pre post, s = pre +:+ sub +:+ post.

End PyStr.

(** ** Exceptions, sequences and dictionaries *)

Module Py.

(** The exceptions the modelled built-ins raise. *)
Inductive exn : Type :=
| IndexError
| KeyError (key : string)
| TypeError
| OverflowError
| ZeroDivisionError.

(** The outcome of a call: a value, or a raised exception. *)
Inductive result (A : Type) : Type :=
| Ok (a : A)
| Raise (e : exn).
Arguments Ok {A} a.
Arguments Raise {A} e.

#[global] Instance result_ret : MRet result := @Ok.
#[global] Instance result_bind : MBind result :=
  λ A B f m, match m with Ok a => f a | Raise e => Raise e end.

(** [l[i]]: a negative index counts from the end; out of range raises
    [IndexError]. *)
Definition index {A} (l : list A) (i : Z) : result A :=
  let j := if i <? 0 then Z.of_nat (length l) + i else i in
  if j <? 0 then Raise IndexError
  else match l !! Z.to_nat j with
       | Some x => Ok x
       | None => Raise IndexError
       end.

(** [len(l)]. *)
Definition len {A} (l : list A) : Z := Z.of_nat (length l).

(** An entity record [{"type": .., "name": .., "line": ..}]. *)
Record Entity : Type := mkEntity {
  e_type : string;
  e_name : string;
  e_line : Z
}.

(** A relationship record
    [{"type": .., "source": .., "target": .., "line": ..}]. *)
Record Relationship : Type := mkRelationship {
  r_type : string;
  r_source : string;
  r_target : string;
  r_line : Z
}.

(** The values the result dictionaries hold. [VSet X] is the list
    [list(X)] of a set [X]: its elements once each, in the iteration
    order of the set, which Python leaves unspecified. *)
Inductive value : Type :=
| VInt (n : Z)
| VStr (s : string)
| VList (l : list string)
| VSet (X : gset string)
| VEntities (l : list Entity)
| VRelationships (l : list Relationship).

(** [d[k]]. *)
Definition getitem (d : gmap string value) (k : string) : result value :=
  match d !! k with
  | Some v => Ok v
  | None => Raise (KeyError k)
  end.

(** [d.get(k, dflt)]. *)
Definition get (d : gmap string value) (k : string) (dflt : value) : value :=
  default dflt (d !! k).

(** [list(s)] for a string [s]: its characters, each a string. *)
Fixpoint chars (s : string) : list string :=
  match s with
  | EmptyString => []
  | String a s' => String a EmptyString :: chars s'
  end.

(** [set(v)]: the elements of a list of strings, the characters of a
    string; a record is not hashable, and an [int] is not iterable. *)
Definition to_set (v : value) : result (gset string) :=
  match v with
  | VList l => Ok (list_to_set l)
  | VSet X => Ok X
  | VStr s => Ok (list_to_set (chars s))
  | VEntities [] | VRelationships [] => Ok ∅
  | VEntities (_ :: _) | VRelationships (_ :: _) | VInt _ => Raise TypeError
  end.

(** [len(v)]: defined on lists and strings, not on an [int]. *)
Definition len_value (v : value) : result Z :=
  match v with
  | VList l => Ok (len l)
  | VSet X => Ok (Z.of_nat (size X))
  | VEntities l => Ok (len l)
  | VRelationships l => Ok (len l)
  | VStr s => Ok (Z.of_nat (String.length s))
  | VInt _ => Raise TypeError
  end.

(** The operand of [>] between two entity counts. Counts are [int]s in
    every analysis result; any other value is refused with [TypeError]
    (Python refuses operands of different types, and would order two
    strings or two lists). *)
Definition as_int (v : value) : result Z :=
  match v with
  | VInt n => Ok n
  | _ => Raise TypeError
  end.

End Py.

(** ** Python floats *)

Module PyFloat.

(** The spec-level float of an integer, before rounding. *)
Definition SF_of_Z (n : Z) : spec_float :=
  match n with
  | Z0 => S754_zero false
  | Zpos p => S754_finite false p 0
  | Zneg p => S754_finite true p 0
  end.

(** The least magnitude that rounds beyond the largest finite binary64
    value: half an ulp above it. *)
Definition overflow_threshold : Z := 2 ^ 1024 - 2 ^ 970.

(** The binary64 value nearest to the integer [n], ties to even. *)
Definition nearest (n : Z) : float :=
  SF2Prim (binary_normalize prec emax n 0 false).

(** [float(n)] for an [int] [n]: the nearest binary64 value;
    [OverflowError] beyond the range of binary64. *)
Definition of_int (n : Z) : Py.result float :=
  if overflow_threshold <=? Z.abs n then Py.Raise Py.OverflowError
  else Py.Ok (nearest n).

(** [n * x] for an [int] [n] and a [float] [x]. *)
Definition int_mul (n : Z) (x : float) : Py.result float :=
  fn ← of_int n; Py.Ok (fn * x)%float.

(** The binary64 value nearest to the rational [a / b], ties to even. *)
Definition nearest_quotient (a b : Z) : float :=
  SF2Prim (SFdiv prec emax (SF_of_Z a) (SF_of_Z b)).

(** [a / b] for two [int]s: the correctly rounded quotient. *)
Definition truediv (a b : Z) : Py.result float :=
  if b =? 0 then Py.Raise Py.ZeroDivisionError
  else if overflow_threshold * Z.abs b <=? Z.abs a
  then Py.Raise Py.OverflowError
  else Py.Ok (nearest_quotient a b).

(** Round the rational [m * 2^e] to the nearest integer, ties to even. *)
Definition round_half_even (m e : Z) : Z :=
  if 0 <=? e then m * 2 ^ e
  else
    let d := 2 ^ (- e) in
    let q := m / d in
    let r := m mod d in
    if 2 * r <? d then q
    else if d <? 2 * r then q + 1
    else if Z.even q then q else q + 1.

(** [round(x, 2)]: the decimal with two fractional digits nearest to the
    exact value of [x] (ties to even), converted back to binary64. *)
Definition round2 (x : float) : float :=
  match Prim2SF x with
  | S754_finite s m e =>
      let n := round_half_even (Zpos m * 100) e in
      match n with
      | Zpos p =>
          SF2Prim (SFdiv prec emax (S754_finite s p 0) (S754_finite false 100 0))
      | _ => SF2Prim (S754_zero s)
      end
  | _ => x
  end.

End PyFloat.

(** ** The analysis functions of the service *)

Module Service.
Import PyStr Py.

(** The three lists [analyze_code_structure] appends to. *)
Record scan : Type := mkScan {
  entities : list Entity;
  relationships : list Relationship;
  patterns : list string
}.

Definition empty_scan : scan := mkScan [] [] [].

(** The body of the loop of [analyze_code_structure] on line [i]
    (counted from 0) with text [raw]. *)
Definition scan_line (i : Z) (raw : string) (st : scan) : result scan :=
  let line := strip raw in
  if startswith line "func " || startswith line "def " then
    head ← index (split_char line "(") 0;
    func_name ← index (split head) (-1);
    Ok (mkScan (entities st ++ [mkEntity "function" func_name (i + 1)])
               (relationships st) (patterns st))
  else if startswith line "type " || startswith line "class " then
    word ← index (split line) 1;
    head ← index (split_char word "(") 0;
    type_name ← index (split_char head "[") 0;
    Ok (mkScan (entities st ++ [mkEntity "type" type_name (i + 1)])
               (relationships st) (patterns st))
  else if contains line "chan " || contains line "make(chan" then
    Ok (mkScan (entities st) (relationships st)
               (patterns st ++ ["channel_usage"]))
  else if startswith line "go " then
    word ← index (split line) 1;
    target ← index (split_char word "(") 0;
    Ok (mkScan (entities st)
               (relationships st
                  ++ [mkRelationship "launches" "current_function" target (i + 1)])
               (patterns st ++ ["goroutine_launch"]))
  else Ok st.

(** [for i, line in enumerate(lines)], from index [i] on. *)
Fixpoint scan_lines (i : Z) (lines : list string) (st : scan) : result scan :=
  match lines with
  | [] => Ok st
  | raw :: rest => st' ← scan_line i raw st; scan_lines (i + 1) rest st'
  end.

(** [if needle in code_content: patterns.append(tag)]. *)
Definition tag_if (code_content needle tag : string) (l : list string) : list string :=
  if contains code_content needle then l ++ [tag] else l.

(** The whole-text checks that follow the loop. *)
Definition common_patterns_of (code_content : string) (l : list string) : list string :=
  tag_if code_content "context.Context" "context_pattern"
    (tag_if code_content "sync.WaitGroup" "wait_group_pattern"
       (tag_if code_content "select {" "select_pattern" l)).

Definition analyze_code_structure (code_content : string)
  : result (gmap string value) :=
  let lines := split_char code_content LF in
  st ← scan_lines 0 lines empty_scan;
  let patterns := common_patterns_of code_content (patterns st) in
  Ok (<["entities_count" := VInt (len (entities st))]>
      (<["relationships_count" := VInt (len (relationships st))]>
      (<["entities" := VEntities (entities st)]>
      (<["relationships" := VRelationships (relationships st)]>
      (<["patterns" := VSet (list_to_set patterns)]>
      (<["analysis_type" := VStr "structure_analysis"]> ∅)))))).

(** The Python-specific tags, in the order they are appended. *)
Definition python_patterns_of (code_content : string) : list string :=
  tag_if code_content "yield" "generator_pattern"
    (tag_if code_content "@" "decorator_usage"
       (tag_if code_content "await " "await_usage"
          (tag_if code_content "async def" "async_function" []))).

Definition analyze_python_code (code_content : string)
  : result (gmap string value) :=
  result ← analyze_code_structure code_content;
  let python_patterns := python_patterns_of code_content in
  Ok (<["language" := VStr "python"]>
      (<["python_patterns" := VList python_patterns]> result)).

(** The Go-specific tags, in the order they are appended. *)
Definition go_patterns_of (code_content : string) : list string :=
  let l0 :=
    if contains code_content "[" && contains code_content "]"
       && contains code_content "func"
    then ["generics_usage"] else [] in
  tag_if code_content "recover()" "panic_recovery"
    (tag_if code_content "defer " "defer_usage"
       (tag_if code_content "interface{" "interface_definition" l0)).

Definition analyze_go_code (code_content : string)
  : result (gmap string value) :=
  result ← analyze_code_structure code_content;
  let go_patterns := go_patterns_of code_content in
  Ok (<["language" := VStr "go"]>
      (<["go_patterns" := VList go_patterns]> result)).

(** The design-pattern tags, in the order they are appended. *)
Definition design_patterns_of (code_content : string) : list string :=
  let p1 :=
    if forallb (contains code_content) ["chan"; "goroutine"; "worker"]
    then ["worker_pool"] else [] in
  let p2 :=
    if contains code_content "chan" && contains code_content "select"
    then p1 ++ ["pipeline"] else p1 in
  let p3 :=
    if contains code_content "Producer" && contains code_content "Consumer"
    then p2 ++ ["producer_consumer"] else p2 in
  if contains code_content "sync.Once"
     || contains (lower code_content) "once" && contains (lower code_content) "do"
  then p3 ++ ["singleton"] else p3.

Definition extract_design_patterns (code_content : string) : gmap string value :=
  let patterns := design_patterns_of code_content in
  <["design_patterns" := VList patterns]>
  (<["pattern_count" := VInt (len patterns)]>
  (<["analysis_type" := VStr "design_patterns"]> ∅)).

(** [v * w] for a dictionary value [v] and a float [w]: a sequence
    does not multiply by a float. *)
Definition mul_float (v : value) (w : float) : result float :=
  match v with
  | VInt n => PyFloat.int_mul n w
  | _ => Raise TypeError
  end.

Definition calculate_complexity_score (structure patterns : gmap string value)
  : result float :=
  e ← getitem structure "entities_count";
  base_score ← mul_float e 0.1;
  r ← getitem structure "relationships_count";
  relationship_score ← mul_float r 0.2;
  dp ← getitem patterns "design_patterns";
  p ← len_value dp;
  pattern_score ← PyFloat.int_mul p 0.5;
  Ok (PyFloat.round2 (base_score + relationship_score + pattern_score)%float).

(** The lines of the insight report; a line that lists a set of tags
    carries the set, since [', '.join] follows its iteration order. *)
Inductive insight : Type :=
| PythonMoreComplex
| GoMoreComplex
| SimilarComplexity
| CommonPatterns (X : gset string)
| PythonSpecific (X : gset string)
| GoSpecific (X : gset string).

(** The insight report: the dictionary [generate_cross_language_insights]
    returns, field by field. *)
Record insights_report : Type := mkReport {
  insights : list insight;
  common_patterns : gset string;
  python_unique : gset string;
  go_unique : gset string;
  similarity_score : float
}.

(** [if X: l.append(item)] for a set [X]. *)
Definition append_if_nonempty (X : gset string) (item : insight)
    (l : list insight) : list insight :=
  if decide (X = ∅) then l else l ++ [item].

Definition generate_cross_language_insights
    (python_result go_result : gmap string value) : result insights_report :=
  py_entities ← as_int (get python_result "entities_count" (VInt 0));
  go_entities ← as_int (get go_result "entities_count" (VInt 0));
  let insights0 :=
    if go_entities <? py_entities then [PythonMoreComplex]
    else if py_entities <? go_entities then [GoMoreComplex]
    else [SimilarComplexity] in
  py_patterns ← to_set (get python_result "patterns" (VList []));
  go_patterns ← to_set (get go_result "patterns" (VList []));
  let common_patterns := py_patterns ∩ go_patterns in
  let insights1 :=
    append_if_nonempty common_patterns (CommonPatterns common_patterns) insights0 in
  let unique_py := py_patterns ∖ go_patterns in
  let insights2 :=
    append_if_nonempty unique_py (PythonSpecific unique_py) insights1 in
  let unique_go := go_patterns ∖ py_patterns in
  let insights3 :=
    append_if_nonempty unique_go (GoSpecific unique_go) insights2 in
  score ← PyFloat.truediv
            (Z.of_nat (size common_patterns))
            (Z.max (Z.of_nat (size py_patterns) + Z.of_nat (size go_patterns)
                    - Z.of_nat (size common_patterns)) 1);
  Ok (mkReport insights3 common_patterns unique_py unique_go score).

(** The line numbers [ls] increase strictly and none exceeds [i]: the
    invariant of the scanning loop before it reads line [i]. *)
Definition ascending_upto (i : Z) (ls : list Z) : Prop :=
  StronglySorted Z.lt ls ∧ Forall (λ l, l ≤ i) ls.

End Service.

(** ** The vocabulary of the specification *)

Module Spec.
Import PyStr Py Service.

(** The text of Scenario 1: [func Foo() {], [  go Bar()] and [}] on
    three lines. *)
Definition scenario1 : string :=
  "func Foo() {" +:+ String LF ("  go Bar()" +:+ String LF "}").

(** A dictionary is an analysis result when its entity count, if
    present, is an [int] and its patterns, if present, are a list of
    tags. *)
Definition is_analysis_result (d : gmap string value) : bool :=
  match d !! "entities_count" with
  | None | Some (VInt _) => true
  | Some _ => false
  end
  && match d !! "patterns" with
     | None | Some (VList _) | Some (VSet _) => true
     | Some _ => false
     end.

(** The pattern set of an analysis result. *)
Definition patterns_of (d : gmap string value) : gset string :=
  match d !! "patterns" with
  | Some (VList l) => list_to_set l
  | Some (VSet X) => X
  | _ => ∅
  end.

(** The similarity score in the words of the specification:
    [|common| / max(|A| + |B| - |common|, 1)] for
    [common = A ∩ B], rounded once to binary64. *)
Definition similarity_spec (A B : gset string) : float :=
  let common := A ∩ B in
  PyFloat.nearest_quotient
    (Z.of_nat (size common))
    (Z.max (Z.of_nat (size A) + Z.of_nat (size B) - Z.of_nat (size common)) 1).

(** The two analysis results of Scenario 4, with the patterns
    [{x, y}] and [{y, z}]. *)
Definition scenario4_A : gmap string value :=
  <["entities_count" := VInt 2]> (<["patterns" := VSet {["x"; "y"]}]> ∅).
Definition scenario4_B : gmap string value :=
  <["entities_count" := VInt 1]> (<["patterns" := VList ["y"; "z"]]> ∅).

(** A structure analysis with three entities and one relationship. *)
Definition sample_structure : gmap string value :=
  <["entities_count" := VInt 3]> (<["relationships_count" := VInt 1]> ∅).

(** The complexity score in the words of the specification:
    [round(0.1 * e + 0.2 * r + 0.5 * p, 2)] in binary64 arithmetic. *)
Definition complexity_spec (e r p : Z) : float :=
  PyFloat.round2
    (PyFloat.nearest e * 0.1 + PyFloat.nearest r * 0.2 + PyFloat.nearest p * 0.5)%float.

(** For all counts below [n] the complexity score is the float nearest
    to the decimal [(e + 2 r + 5 p) / 10]. *)
Definition complexity_exact_below (n : nat) : bool :=
  let counts := Z.of_nat <$> seq 0 n in
  forallb (λ e, forallb (λ r, forallb (λ p,
    PrimFloat.Leibniz.eqb
      (complexity_spec e r p)
      (PyFloat.nearest_quotient (e + 2 * r + 5 * p) 10)) counts) counts) counts.

End Spec.

(** ** The rules of the scanning loop, line by line *)

Module Rules.
Import PyStr Py Service.

(** The branch of the [if]/[elif] chain of [analyze_code_structure] that
    a line takes: the first whose guard holds on the stripped line. *)
Inductive rule : Type :=
| FunctionRule
| TypeRule
| ChannelRule
| GoroutineRule
| NoRule.

Definition rule_of (raw : string) : rule :=
  let line := strip raw in
  if startswith line "func " || startswith line "def " then FunctionRule
  else if startswith line "type " || startswith line "class " then TypeRule
  else if contains line "chan " || contains line "make(chan" then ChannelRule
  else if startswith line "go " then GoroutineRule
  else NoRule.

(** The kind and the line number of the entity each declaration line
    yields, the first line being line [i + 1]. *)
Fixpoint declared (i : Z) (lines : list string) : list (string * Z) :=
  match lines with
  | [] => []
  | raw :: rest =>
      match rule_of raw with
      | FunctionRule => [("function", i + 1)]
      | TypeRule => [("type", i + 1)]
      | _ => []
      end ++ declared (i + 1) rest
  end.

(** The line numbers of the goroutine lines. *)
Fixpoint launched (i : Z) (lines : list string) : list Z :=
  match lines with
  | [] => []
  | raw :: rest =>
      match rule_of raw with
      | GoroutineRule => [i + 1]
      | _ => []
      end ++ launched (i + 1) rest
  end.

(** The tags the loop appends, line after line. *)
Fixpoint line_tags (lines : list string) : list string :=
  match lines with
  | [] => []
  | raw :: rest =>
      match rule_of raw with
      | ChannelRule => ["channel_usage"]
      | GoroutineRule => ["goroutine_launch"]
      | _ => []
      end ++ line_tags rest
  end.

(** No character of [s] satisfies [P]. *)
Fixpoint free_of (P : ascii → bool) (s : string) : bool :=
  match s with
  | EmptyString => true
  | String a s' => negb (P a) && free_of P s'
  end.

(** A name cut out of a line: no whitespace in it, and no opening
    parenthesis. *)
Definition is_token (s : string) : bool :=
  free_of (λ a, isspace a || Ascii.eqb a "(") s.

(** The kind and the line of an entity; the line of a relationship. *)
Definition kind_and_line (e : Entity) : string * Z := (e_type e, e_line e).

(** An entity as the loop builds it: a function with a name that is
    not empty, or a type; its name is a token. *)
Definition entity_ok (e : Entity) : Prop :=
  (e_type e = "function" ∧ e_name e ≠ EmptyString ∨ e_type e = "type")
  ∧ is_token (e_name e) = true.

(** A relationship as the loop builds it. *)
Definition relationship_ok (r : Relationship) : Prop :=
  r_type r = "launches" ∧ r_source r = "current_function"
  ∧ is_token (r_target r) = true.

(** The five tags of the structure analysis. *)
Definition base_vocabulary : list string :=
  ["channel_usage"; "goroutine_launch"; "select_pattern";
   "wait_group_pattern"; "context_pattern"].

End Rules.

(** ** The analysis report *)

Module Report.
Import PyStr Py Service.

(** The [summary] dictionary of the report. *)
Record report_summary : Type := mkSummary {
  total_entities : value;
  total_relationships : value;
  design_patterns : Z;
  complexity_score : float
}.

(** The dictionary [generate_analysis_report] returns, field by field. *)
Record analysis_report : Type := mkAnalysisReport {
  structure : gmap string value;
  patterns : gmap string value;
  summary : report_summary;
  analysis_type : string
}.

Definition generate_analysis_report (code_content : string)
  : result analysis_report :=
  structure_analysis ← analyze_code_structure code_content;
  let pattern_analysis := extract_design_patterns code_content in
  total_entities ← getitem structure_analysis "entities_count";
  total_relationships ← getitem structure_analysis "relationships_count";
  dp ← getitem pattern_analysis "design_patterns";
  design_patterns ← len_value dp;
  complexity_score ← calculate_complexity_score structure_analysis pattern_analysis;
  Ok (mkAnalysisReport structure_analysis pattern_analysis
        (mkSummary total_entities total_relationships design_patterns
           complexity_score)
        "comprehensive_report").

End Report.

(** ** The request handlers

    The handlers are modelled from the point where [request.get_json()]
    has returned. The JSON body is [None] or an object whose values are
    strings; each reading of the clock, the reply of the Go service and
    the two in-memory stores are explicit inputs, and the stores are
    returned with the response. [jsonify] is the identity on the modelled
    response, and the status code stands beside it. *)

Module Handlers.
Import PyStr Py Service Report.

(** [str(n)] for an [int]: its decimal digits, after a minus sign when
    it is negative. *)
Definition str_int (n : Z) : string := NilEmpty.string_of_int (Z.to_int n).

(** The dataclass [ProcessingJob]. *)
Record ProcessingJob : Type := mkJob {
  job_id : string;
  job_action : string;
  job_data : string;
  job_timestamp : float;
  job_status : string;
  job_result : option string
}.

(** The dataclass [AnalysisResult]. *)
Record AnalysisResult : Type := mkAnalysisResult {
  ar_job_id : string;
  ar_entities_found : value;
  ar_relationships_found : value;
  ar_language : string;
  ar_processing_time : float;
  ar_patterns : value
}.

(** The two module-level dictionaries [processing_jobs] and
    [analysis_results]. *)
Record store : Type := mkStore {
  processing_jobs : gmap string ProcessingJob;
  analysis_results : gmap string AnalysisResult
}.

(** What an action of [process_data] computes: a dictionary, or the
    analysis report. *)
Inductive action_result : Type :=
| DictResult (d : gmap string value)
| ReportResult (r : analysis_report).

(** What the handlers catch with [except Exception]: an exception of the
    analysis, or the [AttributeError] of calling [get] on [None]. *)
Inductive handler_exn : Type :=
| Analysis (e : exn)
| NoneHasNoGet.

(** The response bodies. *)
Inductive process_response : Type :=
| JobDone (job_id status : string) (result : action_result)
| ProcessError (error : string).

Inductive job_status_response : Type :=
| JobFound (job : ProcessingJob)
| JobNotFound (error : string).

Inductive results_response : Type :=
| AnalysisFound (analysis : AnalysisResult)
| AnalysisNotFound (error : string).

Inductive language_response : Type :=
| LanguageDone (analysis_id language : string) (processing_time : float)
    (results : AnalysisResult) (details : gmap string value)
| LanguageError (error : string).

Inductive sync_response : Type :=
| SyncDone (python_analysis go_analysis : gmap string value)
    (cross_language_insights : insights_report) (synchronization_status : string)
| SyncError (error : string).

(** The outcome of [requests.post] in [call_go_service]: a reply with its
    status code and JSON object, or a [RequestException]. *)
Inductive http_outcome : Type :=
| Replied (status_code : Z) (json : gmap string value)
| RequestFailed.

Definition call_go_service (outcome : http_outcome) : option (gmap string value) :=
  match outcome with
  | Replied status_code json => if status_code =? 200 then Some json else None
  | RequestFailed => None
  end.

(** The [if]/[elif] chain of [process_data] over the action. *)
Definition run_action (action input_data : string) : result action_result :=
  if String.eqb action "analyze" then
    d ← analyze_code_structure input_data; Ok (DictResult d)
  else if String.eqb action "extract_patterns" then
    Ok (DictResult (extract_design_patterns input_data))
  else if String.eqb action "generate_report" then
    r ← generate_analysis_report input_data; Ok (ReportResult r)
  else
    Ok (DictResult {["error" := VStr ("Unknown action: " +:+ action)]}).

Section handlers.

(** [json.dumps] on a result, and [str] on a caught exception. *)
Variable json_dumps : action_result → string.
Variable str_exn : handler_exn → string.

(** [process_data], with [stamp] the value of [int(time.time())] and
    [now] the clock reading stored as the timestamp. *)
Definition process_data (data : option (gmap string string)) (stamp : Z)
    (now : float) (st : store) : process_response * Z * store :=
  match data with
  | None => (ProcessError "No data provided", 400, st)
  | Some d =>
      if decide (d = ∅) then (ProcessError "No data provided", 400, st)
      else
        let action := default "analyze" (d !! "action") in
        let input_data := default "" (d !! "data") in
        let id := "job_" +:+ str_int stamp in
        let job := mkJob id action input_data now "pending" None in
        let st1 :=
          mkStore (<[id := job]> (processing_jobs st)) (analysis_results st) in
        match run_action action input_data with
        | Ok result =>
            let job' :=
              mkJob id action input_data now "completed"
                (Some (json_dumps result)) in
            (JobDone id "completed" result, 200,
             mkStore (<[id := job']> (processing_jobs st)) (analysis_results st))
        | Raise e => (ProcessError (str_exn (Analysis e)), 500, st1)
        end
  end.

(** [analyze_by_language], with the two clock readings around the
    analysis and [stamp] the value of [int(time.time())]. *)
Definition analyze_by_language (language : string)
    (data : option (gmap string string)) (start_time end_time : float)
    (stamp : Z) (st : store) : language_response * Z * store :=
  match data with
  | None => (LanguageError (str_exn NoneHasNoGet), 500, st)
  | Some d =>
      let code_content := default "" (d !! "code") in
      let analysed :=
        if String.eqb (lower language) "python"
        then Some (analyze_python_code code_content)
        else if String.eqb (lower language) "go"
        then Some (analyze_go_code code_content)
        else None in
      match analysed with
      | None =>
          (LanguageError ("Unsupported language: " +:+ language), 400, st)
      | Some (Raise e) => (LanguageError (str_exn (Analysis e)), 500, st)
      | Some (Ok result) =>
          let processing_time := (end_time - start_time)%float in
          let analysis :=
            mkAnalysisResult ("analysis_" +:+ str_int stamp)
              (get result "entities_count" (VInt 0))
              (get result "relationships_count" (VInt 0))
              language processing_time
              (get result "patterns" (VList [])) in
          (LanguageDone (ar_job_id analysis) language processing_time analysis
             result,
           200,
           mkStore (processing_jobs st)
             (<[ar_job_id analysis := analysis]> (analysis_results st)))
      end
  end.

(** [synchronize_with_go_service], given the outcome of the call to the
    Go service. *)
Definition synchronize_with_go_service (data : option (gmap string string))
    (outcome : http_outcome) : sync_response * Z :=
  match call_go_service outcome with
  | None => (SyncError "Failed to communicate with Go service", 500)
  | Some go_response =>
      if decide (go_response = ∅)
      then (SyncError "Failed to communicate with Go service", 500)
      else
        match data with
        | None => (SyncError (str_exn NoneHasNoGet), 500)
        | Some d =>
            match
              python_analysis ← analyze_code_structure (default "" (d !! "code"));
              insights ← generate_cross_language_insights python_analysis
                           go_response;
              Ok (python_analysis, insights)
            with
            | Ok (python_analysis, insights) =>
                (SyncDone python_analysis go_response insights "success", 200)
            | Raise e => (SyncError (str_exn (Analysis e)), 500)
            end
        end
  end.

End handlers.

Definition get_job_status (id : string) (st : store) : job_status_response * Z :=
  match processing_jobs st !! id with
  | Some job => (JobFound job, 200)
  | None => (JobNotFound "Job not found", 404)
  end.

Definition get_analysis_results (analysis_id : string) (st : store)
  : results_response * Z :=
  match analysis_results st !! analysis_id with
  | Some analysis => (AnalysisFound analysis, 200)
  | None => (AnalysisNotFound "Analysis not found", 404)
  end.

End Handlers.

(** ** Sample requests *)

Module Samples.
Import Py Handlers.

(** A body that asks for the default action on one line of Go. *)
Definition go_request : gmap string string := {["data" := "go Bar()"]}.
Definition other_request : gmap string string := {["data" := "func Foo()"]}.

(** A body with an action the service does not know. *)
Definition delete_request : gmap string string := {["action" := "delete"]}.

(** A body for the language and the synchronization endpoints. *)
Definition code_request : gmap string string := {["code" := "def f():"]}.

(** A serializer and an exception printer that print nothing. *)
Definition no_dumps : action_result → string := λ _, EmptyString.
Definition no_str : handler_exn → string := λ _, EmptyString.

Definition empty_store : store := mkStore ∅ ∅.

End Samples.

(** ** Facts about the string built-ins *)

Module PyStrFacts.
Import PyStr.

#[local] Arguments String.append : simpl nomatch.

Lemma startswith_spec (s prefix : string) :
  startswith s prefix = true ↔ ∃ t, s = prefix +:+ t.
Proof.
  revert s. induction prefix as [|a p IH]; intros s; simpl.
  - split; [intros _; by exists s | done].
  - destruct s as [|b t].
    + split; [done | intros [u Hu]; discriminate].
    + rewrite andb_true_iff, IH. split.
      * intros [Hab [u ->]]. apply Ascii.eqb_eq in Hab as ->. by exists u.
      * intros [u Hu]. injection Hu as -> ->.
        split; [apply Ascii.eqb_refl | by exists u].
Qed.

Lemma contains_unfold (s needle : string) :
  contains s needle
  = startswith s needle
    || match s with
       | EmptyString => false
       | String _ t => contains t needle
       end.
Proof. by destruct s. Qed.

(** [needle in s] holds exactly when [needle] occurs in [s]. *)
Lemma contains_spec (s needle : string) :
  contains s needle = true ↔ occurs_in needle s.
Proof.
  unfold occurs_in. split.
  - induction s as [|a t IH]; rewrite contains_unfold, orb_true_iff.
    + intros [H | H]; [|done].
      apply startswith_spec in H as [u Hu]. by exists EmptyString, u.
    + intros [H | H].
      * apply startswith_spec in H as [u Hu]. by exists EmptyString, u.
      * destruct (IH H) as (pre & post & ->). by exists (String a pre), post.
  - intros (pre & post & ->). induction pre as [|a pre IH].
    + rewrite contains_unfold. apply orb_true_iff. left.
      apply startswith_spec. by exists post.
    + rewrite contains_unfold. apply orb_true_iff. by right.
Qed.

Lemma split_char_cons (s : string) (c : ascii) :
  ∃ h t, split_char s c = h :: t.
Proof.
  destruct s as [|a s']; simpl; [by eexists _, _|].
  destruct (Ascii.eqb a c); [by eexists _, _|].
  destruct (split_char s' c); by eexists _, _.
Qed.

(** The first piece keeps a leading character that is not the separator. *)
Lemma split_char_head (a c : ascii) (s : string) :
  Ascii.eqb a c = false → ∃ h t, split_char (String a s) c = String a h :: t.
Proof.
  intros Hac. simpl. rewrite Hac.
  destruct (split_char s c); by eexists _, _.
Qed.

(** A string that starts with a non-blank character has a first word. *)
Lemma split_head_cons (a : ascii) (s : string) :
  isspace a = false → ∃ w ws, split (String a s) = w :: ws.
Proof.
  intros Ha. simpl. rewrite Ha. destruct s as [|b s']; [by eexists _, _|].
  destruct (isspace b); [by eexists _, _|].
  destruct (split (String b s')); by eexists _, _.
Qed.

Lemma split_all_space (s : string) :
  split s = [] ↔ all_space s = true.
Proof.
  induction s as [|a s' IH]; [done|].
  destruct (isspace a) eqn:Ha.
  - simpl. rewrite Ha. simpl. exact IH.
  - destruct (split_head_cons a s' Ha) as (w & ws & ->).
    simpl. rewrite Ha. simpl. split; discriminate.
Qed.

(** [rstrip] leaves no blank suffix. *)
Lemma rstrip_suffix (s p q : string) :
  rstrip s = p +:+ q → all_space q = true → q = EmptyString.
Proof.
  revert p q. induction s as [|a s' IH]; intros p q; simpl.
  - destruct p; [simpl; by intros <- | discriminate].
  - destruct (rstrip s') as [|b r] eqn:Hr.
    + destruct (isspace a) eqn:Ha.
      * destruct p; [simpl; by intros <- | discriminate].
      * destruct p as [|a' p']; simpl.
        -- intros <-. simpl. by rewrite Ha.
        -- intros [= <- Hq]. destruct p'; [simpl in Hq; by subst | discriminate].
    + destruct p as [|a' p']; simpl.
      * intros <-. simpl. intros [_ Hq]%andb_true_iff.
        by specialize (IH EmptyString _ eq_refl Hq).
      * intros [= <- Hq]. by apply (IH p').
Qed.

Lemma append_assoc (s1 s2 s3 : string) :
  (s1 +:+ s2) +:+ s3 = s1 +:+ s2 +:+ s3.
Proof. induction s1 as [|a s1 IH]; simpl; by f_equal. Qed.

(** In a stripped line a blank is followed by a further word. *)
Lemma strip_blank_then_word (raw p t : string) (b : ascii) :
  isspace b = true → strip raw = p +:+ String b t →
  ∃ w ws, split t = w :: ws.
Proof.
  unfold strip. intros Hb H. destruct (all_space t) eqn:Ht.
  - assert (t = EmptyString) as ->.
    { apply (rstrip_suffix (lstrip raw) (p +:+ String b EmptyString)); [|done].
      by rewrite append_assoc. }
    apply rstrip_suffix in H; [done|]. simpl. by rewrite Hb.
  - destruct (split t) as [|w ws] eqn:Hs; [|by eexists _, _].
    apply split_all_space in Hs. congruence.
Qed.

Lemma lstrip_all_space (s : string) :
  all_space s = true → lstrip s = EmptyString.
Proof.
  induction s as [|a s' IH]; [done|]. simpl.
  intros [Ha Hs]%andb_true_iff. rewrite Ha. by apply IH.
Qed.

Lemma strip_all_space (s : string) :
  all_space s = true → strip s = EmptyString.
Proof. intros H. unfold strip. by rewrite lstrip_all_space. Qed.

(** A blank text has blank lines only. *)
Lemma split_char_all_space (s : string) (c : ascii) :
  all_space s = true → Forall (λ l, all_space l = true) (split_char s c).
Proof.
  induction s as [|a s' IH]; simpl; [by repeat constructor|].
  intros [Ha Hs]%andb_true_iff. specialize (IH Hs).
  destruct (Ascii.eqb a c); [by constructor|].
  destruct (split_char s' c) as [|h t]; [repeat constructor; simpl; by rewrite Ha|].
  inversion IH; subst. constructor; [simpl; by rewrite Ha | done].
Qed.

(** A blank text contains no needle that starts with a non-blank. *)
Lemma contains_all_space (s : string) (a : ascii) (needle : string) :
  all_space s = true → isspace a = false →
  contains s (String a needle) = false.
Proof.
  intros Hs Ha. induction s as [|b t IH]; [done|].
  simpl in Hs. apply andb_true_iff in Hs as [Hb Ht].
  rewrite contains_unfold, (IH Ht), orb_false_r. simpl.
  destruct (Ascii.eqb a b) eqn:Hab; [|done].
  apply Ascii.eqb_eq in Hab. congruence.
Qed.

End PyStrFacts.

(** ** Facts about indexing and the exception monad *)

Module PyFacts.
Import Py.

Lemma bind_Ok {A B} (a : A) (f : A → result B) : (Ok a ≫= f) = f a.
Proof. done. Qed.

Lemma index_0 {A} (x : A) (l : list A) : index (x :: l) 0 = Ok x.
Proof. done. Qed.

Lemma index_1 {A} (x y : A) (l : list A) : index (x :: y :: l) 1 = Ok y.
Proof. done. Qed.

(** [l[-1]] is defined on a list that is not empty. *)
Lemma index_last {A} (x : A) (l : list A) : ∃ y, index (x :: l) (-1) = Ok y.
Proof.
  assert (Z.of_nat (length (x :: l)) + -1 = Z.of_nat (length l)) as Hj
    by (simpl length; lia).
  unfold index. cbv zeta. change (-1 <? 0) with true. cbv iota. rewrite Hj.
  destruct (Z.ltb_spec (Z.of_nat (length l)) 0) as [?|_]; [lia|].
  rewrite Nat2Z.id.
  destruct (lookup_lt_is_Some_2 (x :: l) (length l)) as [y ->];
    [simpl; lia | by exists y].
Qed.

(** Setting two keys of a dictionary leaves every other key as it was. *)
Lemma added_keys_frame (d : gmap string value) (k1 k2 : string) (v1 v2 : value) :
  ∀ k, k ≠ k2 → k ≠ k1 → <[k1:=v1]> (<[k2:=v2]> d) !! k = d !! k.
Proof. intros k H2 H1. by rewrite !lookup_insert_ne. Qed.

End PyFacts.

(** ** The scanning loop *)

Module ScanFacts.
Import PyStr Py Service PyStrFacts PyFacts.

#[local] Arguments String.append : simpl nomatch.

(** What one iteration does: it never raises; it leaves the entity list
    alone or appends one entity of the current line, and likewise for
    the relationship list. *)
Lemma scan_line_step (i : Z) (raw : string) (st : scan) :
  ∃ st', scan_line i raw st = Ok st'
    ∧ (entities st' = entities st
       ∨ ∃ k n, entities st' = entities st ++ [mkEntity k n (i + 1)])
    ∧ (relationships st' = relationships st
       ∨ ∃ t, relationships st'
              = relationships st
                  ++ [mkRelationship "launches" "current_function" t (i + 1)]).
Proof.
  unfold scan_line.
  destruct (startswith (strip raw) "func " || startswith (strip raw) "def ") eqn:Hfun.
  { assert (∃ a t, strip raw = String a t ∧ Ascii.eqb a "(" = false
                   ∧ isspace a = false) as (a & t & -> & Hsep & Hsp).
    { apply orb_true_iff in Hfun as [[t ->]%startswith_spec | [t ->]%startswith_spec];
        by eexists _, _. }
    destruct (split_char_head a "(" t Hsep) as (h & hs & ->).
    rewrite index_0, bind_Ok.
    destruct (split_head_cons a h Hsp) as (w & ws & ->).
    destruct (index_last w ws) as [name ->]. rewrite bind_Ok.
    eexists. split; [done|]. simpl. split; [right; by eexists _, _ | by left]. }
  destruct (startswith (strip raw) "type " || startswith (strip raw) "class ") eqn:Hty.
  { assert (∃ kw t, strip raw = kw +:+ String " " t
                    ∧ ∀ u, split (kw +:+ String " " u) = kw :: split u)
      as (kw & t & Hline & Hsplit).
    { apply orb_true_iff in Hty as [[t Ht]%startswith_spec | [t Ht]%startswith_spec].
      - by exists "type", t.
      - by exists "class", t. }
    destruct (strip_blank_then_word raw kw t " " eq_refl Hline) as (w & ws & Hw).
    rewrite Hline, Hsplit, Hw, index_1, bind_Ok.
    destruct (split_char_cons w "(") as (h & hs & ->). rewrite index_0, bind_Ok.
    destruct (split_char_cons h "[") as (h' & hs' & ->). rewrite index_0, bind_Ok.
    eexists. split; [done|]. simpl. split; [right; by eexists _, _ | by left]. }
  destruct (contains (strip raw) "chan " || contains (strip raw) "make(chan").
  { eexists. split; [done|]. simpl. by split; left. }
  destruct (startswith (strip raw) "go ") eqn:Hgo.
  { apply startswith_spec in Hgo as [t Hline].
    destruct (strip_blank_then_word raw "go" t " " eq_refl Hline) as (w & ws & Hw).
    rewrite Hline.
    change (split ("go " +:+ t)) with ("go" :: split t).
    rewrite Hw, index_1, bind_Ok.
    destruct (split_char_cons w "(") as (h & hs & ->). rewrite index_0, bind_Ok.
    eexists. split; [done|]. simpl. split; [by left | right; by eexists]. }
  eexists. split; [done|]. by split; left.
Qed.

Lemma ascending_upto_nil (i : Z) : ascending_upto i [].
Proof. split; constructor. Qed.

Lemma ascending_upto_mono (i j : Z) (ls : list Z) :
  i ≤ j → ascending_upto i ls → ascending_upto j ls.
Proof.
  intros Hij [Hs Hb]. split; [done|].
  eapply Forall_impl; [exact Hb|]. intros l Hl. simpl in Hl. lia.
Qed.

Lemma ascending_upto_snoc (i : Z) (ls : list Z) :
  ascending_upto i ls → ascending_upto (i + 1) (ls ++ [i + 1]).
Proof.
  intros [Hs Hb]. rewrite Forall_forall in Hb. split.
  - apply StronglySorted_app_2; [|done|repeat constructor].
    intros x1 x2 H1 ->%list_elem_of_singleton. specialize (Hb _ H1). simpl in Hb. lia.
  - apply Forall_app. split; [|repeat constructor; lia].
    apply Forall_forall. intros l Hl. specialize (Hb _ Hl). simpl in *. lia.
Qed.

(** Strictly increasing line numbers are in ascending order. *)
Lemma ascending_upto_sorted (i : Z) (ls : list Z) :
  ascending_upto i ls → Sorted Z.le ls.
Proof.
  intros [Hs _]. induction Hs as [|x l _ IH Hx]; constructor; [done|].
  destruct Hx as [|y l' Hxy _]; constructor. lia.
Qed.

(** The loop never raises and keeps both lists in ascending line order. *)
Lemma scan_lines_spec (lines : list string) (i : Z) (st : scan) :
  ascending_upto i (e_line <$> entities st) →
  ascending_upto i (r_line <$> relationships st) →
  ∃ st', scan_lines i lines st = Ok st'
    ∧ ascending_upto (i + len lines) (e_line <$> entities st')
    ∧ ascending_upto (i + len lines) (r_line <$> relationships st').
Proof.
  revert i st. induction lines as [|raw rest IH]; intros i st He Hr.
  - exists st. unfold len. simpl. rewrite Z.add_0_r. done.
  - simpl scan_lines.
    destruct (scan_line_step i raw st) as (st1 & -> & He1 & Hr1).
    rewrite bind_Ok.
    destruct (IH (i + 1) st1) as (st' & Hst' & He' & Hr').
    + destruct He1 as [-> | (k & n & ->)].
      * eapply ascending_upto_mono; [|done]. lia.
      * rewrite fmap_app. by apply ascending_upto_snoc.
    + destruct Hr1 as [-> | (t & ->)].
      * eapply ascending_upto_mono; [|done]. lia.
      * rewrite fmap_app. by apply ascending_upto_snoc.
    + exists st'. split; [done|].
      replace (i + len (raw :: rest)) with (i + 1 + len rest)
        by (unfold len; simpl length; lia).
      done.
Qed.

(** [analyze_code_structure] returns a dictionary, whose fields are read
    off the final state of the loop. *)
Lemma analyze_code_structure_fields (code_content : string) :
  ∃ st d,
    scan_lines 0 (split_char code_content LF) empty_scan = Ok st
    ∧ analyze_code_structure code_content = Ok d
    ∧ d !! "entities_count" = Some (VInt (len (entities st)))
    ∧ d !! "relationships_count" = Some (VInt (len (relationships st)))
    ∧ d !! "entities" = Some (VEntities (entities st))
    ∧ d !! "relationships" = Some (VRelationships (relationships st))
    ∧ d !! "patterns"
      = Some (VSet (list_to_set (common_patterns_of code_content (patterns st))))
    ∧ d !! "python_patterns" = None
    ∧ d !! "go_patterns" = None
    ∧ d !! "language" = None
    ∧ ascending_upto (len (split_char code_content LF)) (e_line <$> entities st)
    ∧ ascending_upto (len (split_char code_content LF)) (r_line <$> relationships st).
Proof.
  destruct (scan_lines_spec (split_char code_content LF) 0 empty_scan)
    as (st & Hst & He & Hr); [apply ascending_upto_nil..|].
  unfold analyze_code_structure. rewrite Hst, bind_Ok.
  exists st. eexists. split; [done|]. split; [done|].
  repeat split; try done; [apply He | apply He | apply Hr | apply Hr].
Qed.

End ScanFacts.

(** ** Facts about the float conversions *)

Module PyFloatFacts.
Import Py PyFloat.

Lemma overflow_threshold_gt_1 : 1 < overflow_threshold.
Proof. by vm_compute. Qed.

(** An integer of moderate size converts to a float. *)
Lemma of_int_in_range (n : Z) :
  Z.abs n < overflow_threshold → of_int n = Ok (nearest n).
Proof.
  intros H. unfold of_int.
  destruct (Z.leb_spec overflow_threshold (Z.abs n)); [lia | done].
Qed.

Lemma int_mul_in_range (n : Z) (w : float) :
  Z.abs n < overflow_threshold → int_mul n w = Ok (nearest n * w)%float.
Proof. intros H. unfold int_mul. by rewrite of_int_in_range. Qed.

(** A proper fraction divides without error. *)
Lemma truediv_fraction (a b : Z) :
  0 ≤ a ≤ b → 0 < b → truediv a b = Ok (nearest_quotient a b).
Proof.
  intros Hab Hb. unfold truediv.
  destruct (Z.eqb_spec b 0); [lia|].
  pose proof overflow_threshold_gt_1 as Ht.
  destruct (Z.leb_spec (overflow_threshold * Z.abs b) (Z.abs a)) as [Hle|]; [|done].
  rewrite !Z.abs_eq in Hle by lia. nia.
Qed.

End PyFloatFacts.

(** ** The insight merger *)

Module MergeFacts.
Import Py Service Spec PyFacts PyFloatFacts.

Section analysis_result.
Variable d : gmap string value.
Hypothesis Hd : is_analysis_result d = true.

Lemma entity_count_is_int :
  ∃ n, as_int (get d "entities_count" (VInt 0)) = Ok n.
Proof.
  unfold is_analysis_result in Hd. apply andb_true_iff in Hd as [H _].
  unfold get. destruct (d !! "entities_count") as [[]|]; try done; by eexists.
Qed.

Lemma patterns_as_set :
  to_set (get d "patterns" (VList [])) = Ok (patterns_of d).
Proof.
  unfold is_analysis_result in Hd. apply andb_true_iff in Hd as [_ H].
  unfold get, patterns_of. destruct (d !! "patterns") as [[]|]; done.
Qed.

End analysis_result.

(** The common patterns are at most as many as the union. *)
Lemma common_size_bound (X Y : gset string) :
  0 ≤ Z.of_nat (size (X ∩ Y))
    ≤ Z.max (Z.of_nat (size X) + Z.of_nat (size Y) - Z.of_nat (size (X ∩ Y))) 1.
Proof.
  assert (size (X ∩ Y) ≤ size X)%nat by (apply subseteq_size, intersection_subseteq_l).
  assert (size (X ∩ Y) ≤ size Y)%nat by (apply subseteq_size, intersection_subseteq_r).
  lia.
Qed.

Section merge.
Variables A B : gmap string value.
Hypothesis HA : is_analysis_result A = true.
Hypothesis HB : is_analysis_result B = true.

(** The merger returns a report on every two analysis results; its set
    fields and its score are those of the two pattern sets. *)
Lemma generate_cross_language_insights_ok :
  ∃ ins,
    generate_cross_language_insights A B
    = Ok (mkReport ins
            (patterns_of A ∩ patterns_of B)
            (patterns_of A ∖ patterns_of B)
            (patterns_of B ∖ patterns_of A)
            (similarity_spec (patterns_of A) (patterns_of B))).
Proof.
  unfold generate_cross_language_insights.
  destruct (entity_count_is_int A HA) as [na ->].
  destruct (entity_count_is_int B HB) as [nb ->].
  rewrite !bind_Ok, (patterns_as_set A HA), (patterns_as_set B HB), !bind_Ok.
  pose proof (common_size_bound (patterns_of A) (patterns_of B)) as Hsz.
  rewrite truediv_fraction by lia. rewrite bind_Ok. by eexists.
Qed.

End merge.

End MergeFacts.

(** ** The tag lists *)

Module TagFacts.
Import PyStr Py Service PyStrFacts.

(** [if b: l.append(t)] adds [t] and nothing else. *)
Lemma elem_of_append_if (b : bool) (x t : string) (l : list string) :
  x ∈ (if b then l ++ [t] else l) ↔ x ∈ l ∨ (x = t ∧ b = true).
Proof.
  destruct b.
  - rewrite elem_of_app, list_elem_of_singleton. split.
    + intros [H | H]; [by left | by right].
    + intros [H | [H _]]; [by left | by right].
  - split; [by left | by intros [H | [_ H]]].
Qed.

Lemma elem_of_tag_if (x code_content needle tag : string) (l : list string) :
  x ∈ tag_if code_content needle tag l
  ↔ x ∈ l ∨ (x = tag ∧ occurs_in needle code_content).
Proof. unfold tag_if. by rewrite elem_of_append_if, contains_spec. Qed.

(** A blank text raises none of the whole-text tags. *)
Lemma common_patterns_of_blank (code_content : string) (l : list string) :
  all_space code_content = true → common_patterns_of code_content l = l.
Proof.
  intros H. unfold common_patterns_of, tag_if.
  rewrite (contains_all_space code_content "s" "elect {" H eq_refl).
  rewrite (contains_all_space code_content "s" "ync.WaitGroup" H eq_refl).
  by rewrite (contains_all_space code_content "c" "ontext.Context" H eq_refl).
Qed.

(** A blank line leaves the state of the loop as it is. *)
Lemma scan_line_blank (i : Z) (raw : string) (st : scan) :
  all_space raw = true → scan_line i raw st = Ok st.
Proof. intros H. unfold scan_line. by rewrite (strip_all_space raw H). Qed.

Lemma scan_lines_blank (lines : list string) (i : Z) (st : scan) :
  Forall (λ l, all_space l = true) lines → scan_lines i lines st = Ok st.
Proof.
  intros H. revert i. induction H as [|raw rest Hraw _ IH]; intros i; [done|].
  simpl. rewrite (scan_line_blank i raw st Hraw). apply IH.
Qed.

End TagFacts.

(** ** The built-ins on examples *)

Module Examples.
Import PyStr Py PyFloat Service Spec.

Example strip_line : strip "  go Bar()  " = "go Bar()".
Proof. reflexivity. Qed.

Example split_words :
  split " type  Stack[T any] struct " = ["type"; "Stack[T"; "any]"; "struct"].
Proof. reflexivity. Qed.

Example split_blank : split "   " = [].
Proof. reflexivity. Qed.

Example split_paren :
  split_char "func Foo(a) (int, error)" "(" = ["func Foo"; "a) "; "int, error)"].
Proof. reflexivity. Qed.

Example split_empty : split_char "" LF = [""].
Proof. reflexivity. Qed.

Example index_from_end : index ["func"; "Foo"] (-1) = Ok "Foo".
Proof. reflexivity. Qed.

Example index_out_of_range : index ["go"] 1 = Raise IndexError.
Proof. reflexivity. Qed.

Example lower_latin1 : lower "Sync.ONCE" = "sync.once".
Proof. reflexivity. Qed.

(** [round(x, 2)] rounds the exact binary value, ties to even. *)
Example round2_values :
  round2 0.125 = 0.12%float
  ∧ round2 0.375 = 0.38%float
  ∧ round2 2.675 = 2.67%float
  ∧ round2 1.005 = 1%float.
Proof. repeat split; reflexivity. Qed.

(** [float(n)] overflows from [2^1024 - 2^970] on. *)
Example of_int_boundary :
  of_int (overflow_threshold - 1) = Ok 0x1.fffffffffffffp+1023%float
  ∧ of_int overflow_threshold = Raise OverflowError.
Proof. split; reflexivity. Qed.

(** Three entities score [0.3], not the [0.30000000000000004] of the
    unrounded sum. *)
Example complexity_three_entities :
  (nearest 3 * 0.1 + nearest 0 * 0.2 + nearest 0 * 0.5)%float
  = 0.30000000000000004%float
  ∧ complexity_spec 3 0 0 = 0.3%float.
Proof. split; reflexivity. Qed.

Example complexity_exact_small : complexity_exact_below 12 = true.
Proof. vm_compute. reflexivity. Qed.

(** A goroutine launched on a function literal is recorded with the
    target [func]; a line that is the bare keyword matches no rule. *)
Example scan_go_literal :
  scan_line 4 "  go func() { work() }()" empty_scan
  = Ok (mkScan [] [mkRelationship "launches" "current_function" "func" 5]
          ["goroutine_launch"])
  ∧ scan_line 4 " go " empty_scan = Ok empty_scan.
Proof. split; reflexivity. Qed.

End Examples.

(** ** Properties of the analysis functions *)

Module Properties.
Import PyStr Py Service Spec PyStrFacts PyFacts PyFloatFacts ScanFacts
  MergeFacts TagFacts.

(** C1 (Scenario 1). On the text [func Foo() {], [  go Bar()], [}] the
    structure analysis returns exactly one entity, the function [Foo] of
    line 1, exactly one relationship, [launches] from [current_function]
    to [Bar] on line 2, and a pattern set that contains
    [goroutine_launch]. *)
Theorem scenario1_structure :
  ∃ d X,
    analyze_code_structure scenario1 = Ok d
    ∧ d !! "entities" = Some (VEntities [mkEntity "function" "Foo" 1])
    ∧ d !! "entities_count" = Some (VInt 1)
    ∧ d !! "relationships"
      = Some (VRelationships
                [mkRelationship "launches" "current_function" "Bar" 2])
    ∧ d !! "relationships_count" = Some (VInt 1)
    ∧ d !! "patterns" = Some (VSet X)
    ∧ "goroutine_launch" ∈ X.
Proof.
  destruct (analyze_code_structure_fields scenario1)
    as (st & d & Hst & Hd & Hec & Hrc & He & Hr & Hp & _).
  assert (st = mkScan [mkEntity "function" "Foo" 1]
                 [mkRelationship "launches" "current_function" "Bar" 2]
                 ["goroutine_launch"]) as ->.
  { vm_compute in Hst. by injection Hst as <-. }
  exists d, (list_to_set (common_patterns_of scenario1 ["goroutine_launch"])).
  repeat split; done.
Qed.

(** C2. The design patterns extracted from a text include [worker_pool]
    exactly when the text contains the channel marker [chan], the
    task-launch marker [goroutine] and the token [worker], all three. *)
Theorem worker_pool_iff (code_content : string) :
  ∃ l,
    extract_design_patterns code_content !! "design_patterns" = Some (VList l)
    ∧ ("worker_pool" ∈ l
       ↔ occurs_in "chan" code_content
         ∧ occurs_in "goroutine" code_content
         ∧ occurs_in "worker" code_content).
Proof.
  exists (design_patterns_of code_content). split; [done|].
  unfold design_patterns_of. rewrite !elem_of_append_if.
  rewrite <- !contains_spec. simpl forallb.
  destruct (contains code_content "chan"), (contains code_content "goroutine"),
    (contains code_content "worker"); simpl;
    rewrite ?list_elem_of_singleton, ?elem_of_nil; intuition congruence.
Qed.

(** C4. On a text that is empty or holds only whitespace the structure
    analysis returns, with no entity, no relationship and an empty
    pattern set. *)
Theorem blank_text_structure (code_content : string) :
  all_space code_content = true →
  ∃ d,
    analyze_code_structure code_content = Ok d
    ∧ d !! "entities" = Some (VEntities [])
    ∧ d !! "entities_count" = Some (VInt 0)
    ∧ d !! "relationships" = Some (VRelationships [])
    ∧ d !! "relationships_count" = Some (VInt 0)
    ∧ d !! "patterns" = Some (VSet ∅).
Proof.
  intros Hblank. unfold analyze_code_structure.
  rewrite scan_lines_blank by by apply split_char_all_space.
  rewrite bind_Ok. eexists. split; [done|].
  simpl. rewrite common_patterns_of_blank by done.
  repeat split; done.
Qed.

Lemma blank_text_structure_witness :
  ∃ d,
    analyze_code_structure (String " " (String LF (String " " EmptyString))) = Ok d
    ∧ d !! "entities" = Some (VEntities [])
    ∧ d !! "entities_count" = Some (VInt 0)
    ∧ d !! "relationships" = Some (VRelationships [])
    ∧ d !! "relationships_count" = Some (VInt 0)
    ∧ d !! "patterns" = Some (VSet ∅).
Proof. apply blank_text_structure. reflexivity. Defined.

(** C7. The entities and the relationships the structure analysis
    returns are each in ascending order of their line. *)
Theorem lines_ascending (code_content : string) :
  ∃ d es rs,
    analyze_code_structure code_content = Ok d
    ∧ d !! "entities" = Some (VEntities es)
    ∧ d !! "relationships" = Some (VRelationships rs)
    ∧ Sorted Z.le (e_line <$> es)
    ∧ Sorted Z.le (r_line <$> rs).
Proof.
  destruct (analyze_code_structure_fields code_content)
    as (st & d & _ & Hd & _ & _ & He & Hr & _ & _ & _ & _ & Hes & Hrs).
  exists d, (entities st), (relationships st).
  repeat split; try done; by eapply ascending_upto_sorted.
Qed.

(** C8. On every text the structure analysis, the design-pattern
    extraction and the two language analyses return without raising:
    each step of the scanning loop, with its indexing of the split
    line, is defined on every line. *)
Theorem analyses_never_raise (code_content : string) :
  (∀ i raw st, ∃ st', scan_line i raw st = Ok st')
  ∧ (∃ d, analyze_code_structure code_content = Ok d)
  ∧ (∃ d, analyze_python_code code_content = Ok d)
  ∧ (∃ d, analyze_go_code code_content = Ok d)
  ∧ (∃ l, extract_design_patterns code_content !! "design_patterns"
          = Some (VList l)
        ∧ extract_design_patterns code_content !! "pattern_count"
          = Some (VInt (len l))).
Proof.
  destruct (analyze_code_structure_fields code_content) as (st & d & _ & Hd & _).
  split; [|split; [|split; [|split]]].
  - intros i raw st0. destruct (scan_line_step i raw st0) as (st' & H & _).
    by exists st'.
  - by exists d.
  - unfold analyze_python_code. rewrite Hd, bind_Ok. by eexists.
  - unfold analyze_go_code. rewrite Hd, bind_Ok. by eexists.
  - by exists (design_patterns_of code_content).
Qed.

(** C9. The Python and the Go analysis return the dictionary of the
    structure analysis with two keys added, the language and the
    language-specific patterns ([python_patterns], [go_patterns]), a
    key the structure analysis does not set; the entities, the
    relationships, the base patterns and every other key are as the
    structure analysis returned them. *)
Theorem specializers_keep_base (code_content : string) :
  ∃ base,
    analyze_code_structure code_content = Ok base
    ∧ (∃ d,
          analyze_python_code code_content = Ok d
          ∧ d !! "entities" = base !! "entities"
          ∧ d !! "relationships" = base !! "relationships"
          ∧ d !! "patterns" = base !! "patterns"
          ∧ base !! "python_patterns" = None
          ∧ d !! "python_patterns"
            = Some (VList (python_patterns_of code_content))
          ∧ ∀ k, k ≠ "python_patterns" → k ≠ "language" → d !! k = base !! k)
    ∧ (∃ d,
          analyze_go_code code_content = Ok d
          ∧ d !! "entities" = base !! "entities"
          ∧ d !! "relationships" = base !! "relationships"
          ∧ d !! "patterns" = base !! "patterns"
          ∧ base !! "go_patterns" = None
          ∧ d !! "go_patterns" = Some (VList (go_patterns_of code_content))
          ∧ ∀ k, k ≠ "go_patterns" → k ≠ "language" → d !! k = base !! k).
Proof.
  destruct (analyze_code_structure_fields code_content)
    as (st & base & _ & Hbase & _ & _ & _ & _ & _ & Hpy & Hgo & _).
  exists base. split; [done|]. split.
  - unfold analyze_python_code. rewrite Hbase, bind_Ok. eexists. split; [done|].
    pose proof (added_keys_frame base "language" "python_patterns"
                  (VStr "python") (VList (python_patterns_of code_content)))
      as Hframe.
    repeat split; [by apply Hframe..|done| |exact Hframe].
    by rewrite lookup_insert_ne, lookup_insert_eq.
  - unfold analyze_go_code. rewrite Hbase, bind_Ok. eexists. split; [done|].
    pose proof (added_keys_frame base "language" "go_patterns"
                  (VStr "go") (VList (go_patterns_of code_content)))
      as Hframe.
    repeat split; [by apply Hframe..|done| |exact Hframe].
    by rewrite lookup_insert_ne, lookup_insert_eq.
Qed.

(** C10. The Go analysis lists [generics_usage] among the Go patterns
    exactly when the text contains an opening bracket somewhere, a
    closing bracket somewhere and [func] somewhere, wherever they
    stand. *)
Theorem generics_usage_iff (code_content : string) :
  ∃ d l,
    analyze_go_code code_content = Ok d
    ∧ d !! "go_patterns" = Some (VList l)
    ∧ ("generics_usage" ∈ l
       ↔ occurs_in "[" code_content
         ∧ occurs_in "]" code_content
         ∧ occurs_in "func" code_content).
Proof.
  destruct (analyze_code_structure_fields code_content) as (st & base & _ & Hbase & _).
  unfold analyze_go_code. rewrite Hbase, bind_Ok.
  eexists. exists (go_patterns_of code_content). split; [done|].
  split; [by rewrite lookup_insert_ne, lookup_insert_eq|].
  unfold go_patterns_of. rewrite !elem_of_tag_if, <- !contains_spec.
  destruct (contains code_content "["), (contains code_content "]"),
    (contains code_content "func"); simpl;
    rewrite ?list_elem_of_singleton, ?elem_of_nil; intuition congruence.
Qed.

(** C3. On every two analysis results the merger returns the
    similarity score [|common| / max(|A| + |B| - |common|, 1)] of their
    pattern sets, [common] being their intersection, as the binary64
    quotient Python's [/] yields; the patterns [{x, y}] and [{y, z}]
    give [1 / 3], and two empty pattern sets give [0]. *)
Theorem similarity_score_formula (A B : gmap string value) :
  is_analysis_result A = true → is_analysis_result B = true →
  ∃ report,
    generate_cross_language_insights A B = Ok report
    ∧ common_patterns report = patterns_of A ∩ patterns_of B
    ∧ similarity_score report = similarity_spec (patterns_of A) (patterns_of B)
    ∧ (patterns_of A = {["x"; "y"]} → patterns_of B = {["y"; "z"]} →
       similarity_score report = (1 / 3)%float)
    ∧ (patterns_of A = ∅ → patterns_of B = ∅ →
       similarity_score report = 0%float).
Proof.
  intros HA HB.
  destruct (generate_cross_language_insights_ok A B HA HB) as [ins ->].
  eexists. split; [done|]. simpl. repeat split.
  - by intros -> ->.
  - by intros -> ->.
Qed.

Lemma similarity_score_formula_witness :
  ∃ report,
    generate_cross_language_insights scenario4_A scenario4_B = Ok report
    ∧ similarity_score report = (1 / 3)%float.
Proof.
  destruct (similarity_score_formula scenario4_A scenario4_B eq_refl eq_refl)
    as (report & Hreport & _ & _ & Hthird & _).
  exists report. split; [exact Hreport | apply Hthird; reflexivity].
Defined.

(** C5. For a structure analysis with [e] entities and [r]
    relationships and a design-pattern result with [p] design patterns
    the complexity score is [round(0.1 * e + 0.2 * r + 0.5 * p, 2)] in
    binary64 arithmetic: a function of the three counts alone. *)
Theorem complexity_score_formula
    (structure patterns : gmap string value) (e r : Z) (l : list string) :
  structure !! "entities_count" = Some (VInt e) →
  structure !! "relationships_count" = Some (VInt r) →
  patterns !! "design_patterns" = Some (VList l) →
  Z.abs e < PyFloat.overflow_threshold →
  Z.abs r < PyFloat.overflow_threshold →
  len l < PyFloat.overflow_threshold →
  calculate_complexity_score structure patterns
  = Ok (complexity_spec e r (len l)).
Proof.
  intros He Hr Hl Hbe Hbr Hbl. unfold calculate_complexity_score, getitem.
  rewrite He, Hr, Hl.
  rewrite bind_Ok. cbv beta. simpl mul_float.
  rewrite (int_mul_in_range e) by done.
  rewrite !bind_Ok. cbv beta. simpl mul_float.
  rewrite (int_mul_in_range r) by done.
  rewrite !bind_Ok. cbv beta. simpl len_value.
  rewrite bind_Ok, (int_mul_in_range (len l)) by (unfold len in *; lia).
  by rewrite bind_Ok.
Qed.

Lemma complexity_score_formula_witness :
  calculate_complexity_score sample_structure (extract_design_patterns "chan select")
  = Ok (complexity_spec 3 1 (len ["pipeline"])).
Proof.
  apply (complexity_score_formula sample_structure
           (extract_design_patterns "chan select") 3 1 ["pipeline"]);
    reflexivity.
Defined.

(** C6. Swapping the two analysis results leaves the common patterns of
    the merger as they are and exchanges the two sets of unique
    patterns. *)
Theorem merge_symmetric (A B : gmap string value) :
  is_analysis_result A = true → is_analysis_result B = true →
  ∃ ab ba,
    generate_cross_language_insights A B = Ok ab
    ∧ generate_cross_language_insights B A = Ok ba
    ∧ common_patterns ab = common_patterns ba
    ∧ python_unique ab = go_unique ba
    ∧ go_unique ab = python_unique ba.
Proof.
  intros HA HB.
  destruct (generate_cross_language_insights_ok A B HA HB) as [ins1 ->].
  destruct (generate_cross_language_insights_ok B A HB HA) as [ins2 ->].
  eexists _, _. split; [done|]. split; [done|]. simpl.
  split; [|done]. apply (comm_L (∩)).
Qed.

Lemma merge_symmetric_witness :
  ∃ ab ba,
    generate_cross_language_insights scenario4_A scenario4_B = Ok ab
    ∧ generate_cross_language_insights scenario4_B scenario4_A = Ok ba
    ∧ common_patterns ab = common_patterns ba
    ∧ python_unique ab = go_unique ba
    ∧ go_unique ab = python_unique ba.
Proof. apply (merge_symmetric scenario4_A scenario4_B); reflexivity. Defined.

End Properties.

(** ** Names cut out of a line *)

Module TokenFacts.
Import PyStr Py Service Rules PyStrFacts PyFacts.

#[local] Arguments String.append : simpl nomatch.

Lemma split_unfold (a : ascii) (s' : string) :
  split (String a s')
  = if isspace a then split s'
    else match s' with
         | EmptyString => [String a EmptyString]
         | String b _ =>
             if isspace b then String a EmptyString :: split s'
             else match split s' with
                  | t :: ts => String a t :: ts
                  | [] => [String a EmptyString]
                  end
         end.
Proof. done. Qed.

(** A word of [s.split()] is not empty and holds no whitespace. *)
Lemma split_words_clean (s : string) :
  Forall (λ w, w ≠ EmptyString ∧ free_of isspace w = true) (split s).
Proof.
  induction s as [|a s' IH]; [constructor|].
  rewrite split_unfold. destruct (isspace a) eqn:Ha; [done|].
  assert (∀ t, free_of isspace t = true → free_of isspace (String a t) = true)
    as Hcons by (intros t Ht; simpl; by rewrite Ha, Ht).
  assert (String a EmptyString ≠ EmptyString
          ∧ free_of isspace (String a EmptyString) = true) as Hone
    by (split; [done | by apply Hcons]).
  destruct s' as [|b s'']; [constructor; [exact Hone | constructor]|].
  destruct (isspace b); [by constructor|].
  destruct (split (String b s'')) as [|t ts];
    [constructor; [exact Hone | constructor]|].
  inversion IH as [|? ? [_ Ht] Hts]; subst.
  constructor; [split; [done | by apply Hcons] | done].
Qed.

(** The words of a string free of [P] are free of [P]. *)
Lemma split_free_of (P : ascii → bool) (s : string) :
  free_of P s = true → Forall (λ w, free_of P w = true) (split s).
Proof.
  induction s as [|a s' IH]; [constructor|].
  intros [Ha Hs']%andb_true_iff. specialize (IH Hs').
  rewrite split_unfold. destruct (isspace a); [done|].
  assert (∀ t, free_of P t = true → free_of P (String a t) = true)
    as Hcons by (intros t Ht; simpl; by rewrite Ha, Ht).
  pose proof (Hcons EmptyString eq_refl) as Hone.
  destruct s' as [|b s'']; [constructor; [exact Hone | constructor]|].
  destruct (isspace b); [by constructor|].
  destruct (split (String b s'')) as [|t ts];
    [constructor; [exact Hone | constructor]|].
  inversion IH; subst. constructor; [by apply Hcons | done].
Qed.

(** The first piece of [s.split(c)] holds no [c] and starts [s]. *)
Lemma split_char_first (s : string) (c : ascii) (h : string) (t : list string) :
  split_char s c = h :: t →
  free_of (λ a, Ascii.eqb a c) h = true ∧ ∃ u, s = h +:+ u.
Proof.
  revert h t. induction s as [|a s' IH]; intros h t; simpl.
  - intros [= <- <-]. split; [done | by exists EmptyString].
  - destruct (Ascii.eqb a c) eqn:Hac.
    + intros [= <- <-]. split; [done | by eexists].
    + destruct (split_char_cons s' c) as (p & ps & Hs'). rewrite Hs'.
      intros [= <- <-]. destruct (IH p ps Hs') as [Hp [u ->]].
      split; [simpl; by rewrite Hac, Hp | by exists u].
Qed.

Lemma free_of_prefix (P : ascii → bool) (h u : string) :
  free_of P (h +:+ u) = true → free_of P h = true.
Proof.
  induction h as [|a h IH]; [done|]. simpl.
  intros [Ha Hh]%andb_true_iff. by rewrite Ha, IH.
Qed.

Lemma free_of_or (P Q : ascii → bool) (s : string) :
  free_of P s = true → free_of Q s = true →
  free_of (λ a, P a || Q a) s = true.
Proof.
  induction s as [|a s IH]; [done|]. simpl.
  intros [HP Hs]%andb_true_iff [HQ Hs']%andb_true_iff.
  rewrite IH by done. by destruct (P a), (Q a).
Qed.

(** What [l[i]] returns is an element of [l]. *)
Lemma index_elem_of {A} (l : list A) (i : Z) (x : A) :
  index l i = Ok x → x ∈ l.
Proof.
  unfold index. destruct (_ <? 0); [done|].
  destruct (l !! _) as [y|] eqn:Hy; [|done].
  intros [= <-]. by eapply list_elem_of_lookup_2.
Qed.

(** The piece before the first parenthesis of a word is a token. *)
Lemma word_head_token (w h : string) (t : list string) :
  free_of isspace w = true → split_char w "(" = h :: t → is_token h = true.
Proof.
  intros Hw Hsplit. destruct (split_char_first _ _ _ _ Hsplit) as [Hh [u ->]].
  apply free_of_or; [by eapply free_of_prefix | done].
Qed.

End TokenFacts.

(** ** The loop, rule by rule *)

Module RuleFacts.
Import PyStr Py Service Rules PyStrFacts PyFacts ScanFacts TokenFacts.

#[local] Arguments String.append : simpl nomatch.

(** One iteration does what the rule of its line says, and never
    raises. *)
Lemma scan_line_rule (i : Z) (raw : string) (st : scan) :
  ∃ st', scan_line i raw st = Ok st'
    ∧ match rule_of raw with
      | FunctionRule =>
          ∃ n, is_token n = true ∧ n ≠ EmptyString
            ∧ st' = mkScan (entities st ++ [mkEntity "function" n (i + 1)])
                      (relationships st) (patterns st)
      | TypeRule =>
          ∃ n, is_token n = true
            ∧ st' = mkScan (entities st ++ [mkEntity "type" n (i + 1)])
                      (relationships st) (patterns st)
      | ChannelRule =>
          st' = mkScan (entities st) (relationships st)
                  (patterns st ++ ["channel_usage"])
      | GoroutineRule =>
          ∃ t, is_token t = true
            ∧ st' = mkScan (entities st)
                      (relationships st
                         ++ [mkRelationship "launches" "current_function" t (i + 1)])
                      (patterns st ++ ["goroutine_launch"])
      | NoRule => st' = st
      end.
Proof.
  unfold scan_line, rule_of.
  destruct (startswith (strip raw) "func " || startswith (strip raw) "def ") eqn:Hfun.
  { assert (∃ a t, strip raw = String a t ∧ Ascii.eqb a "(" = false
                   ∧ isspace a = false) as (a & t & -> & Hsep & Hsp).
    { apply orb_true_iff in Hfun as [[t ->]%startswith_spec | [t ->]%startswith_spec];
        by eexists _, _. }
    destruct (split_char_head a "(" t Hsep) as (h & hs & Hsplit).
    rewrite Hsplit, index_0, bind_Ok.
    destruct (split_head_cons a h Hsp) as (w & ws & Hws). rewrite Hws.
    destruct (index_last w ws) as [name Hname]. rewrite Hname, bind_Ok.
    eexists. split; [done|]. exists name.
    apply index_elem_of in Hname. rewrite <- Hws in Hname.
    pose proof (split_words_clean (String a h)) as Hwords.
    rewrite Forall_forall in Hwords. destruct (Hwords _ Hname) as [Hne Hblank].
    destruct (split_char_first _ _ _ _ Hsplit) as [Hfree _].
    pose proof (split_free_of _ _ Hfree) as Hparen.
    rewrite Forall_forall in Hparen. specialize (Hparen _ Hname).
    split; [by apply free_of_or | done]. }
  destruct (startswith (strip raw) "type " || startswith (strip raw) "class ") eqn:Hty.
  { assert (∃ kw t, strip raw = kw +:+ String " " t
                    ∧ ∀ u, split (kw +:+ String " " u) = kw :: split u)
      as (kw & t & Hline & Hsplit).
    { apply orb_true_iff in Hty as [[t Ht]%startswith_spec | [t Ht]%startswith_spec].
      - by exists "type", t.
      - by exists "class", t. }
    destruct (strip_blank_then_word raw kw t " " eq_refl Hline) as (w & ws & Hw).
    rewrite Hline, Hsplit, Hw, index_1, bind_Ok.
    pose proof (split_words_clean t) as Hwords. rewrite Hw in Hwords.
    apply Forall_cons in Hwords as [[_ Hblank] _].
    destruct (split_char_cons w "(") as (h & hs & Hh). rewrite Hh, index_0, bind_Ok.
    pose proof (word_head_token w h hs Hblank Hh) as Htok.
    destruct (split_char_cons h "[") as (h' & hs' & Hh'). rewrite Hh', index_0, bind_Ok.
    destruct (split_char_first _ _ _ _ Hh') as [_ [u ->]].
    eexists. split; [done|]. exists h'. split; [|done].
    by eapply free_of_prefix. }
  destruct (contains (strip raw) "chan " || contains (strip raw) "make(chan").
  { by eexists. }
  destruct (startswith (strip raw) "go ") eqn:Hgo; [|by eexists].
  apply startswith_spec in Hgo as [t Hline].
  destruct (strip_blank_then_word raw "go" t " " eq_refl Hline) as (w & ws & Hw).
  rewrite Hline.
  change (split ("go " +:+ t)) with ("go" :: split t).
  rewrite Hw, index_1, bind_Ok.
  pose proof (split_words_clean t) as Hwords. rewrite Hw in Hwords.
  apply Forall_cons in Hwords as [[_ Hblank] _].
  destruct (split_char_cons w "(") as (h & hs & Hh). rewrite Hh, index_0, bind_Ok.
  eexists. split; [done|]. exists h. split; [|done].
  by eapply word_head_token.
Qed.

(** The loop yields the entities of the declaration lines and the
    relationships of the goroutine lines, in the order of the lines, and
    the tags of the channel and goroutine lines. *)
Lemma scan_lines_described (lines : list string) (i : Z) (st : scan) :
  ∃ st', scan_lines i lines st = Ok st'
    ∧ kind_and_line <$> entities st'
      = (kind_and_line <$> entities st) ++ declared i lines
    ∧ r_line <$> relationships st'
      = (r_line <$> relationships st) ++ launched i lines
    ∧ patterns st' = patterns st ++ line_tags lines
    ∧ (Forall entity_ok (entities st) → Forall entity_ok (entities st'))
    ∧ (Forall relationship_ok (relationships st)
       → Forall relationship_ok (relationships st')).
Proof.
  revert i st. induction lines as [|raw rest IH]; intros i st.
  - exists st. simpl. by rewrite !app_nil_r.
  - simpl scan_lines. destruct (scan_line_rule i raw st) as (st1 & -> & Hrule).
    rewrite bind_Ok. destruct (IH (i + 1) st1) as (st' & -> & He & Hr & Hp & Heok & Hrok).
    exists st'. split; [done|]. rewrite He, Hr, Hp. simpl declared. simpl launched.
    simpl line_tags. destruct (rule_of raw).
    + destruct Hrule as (n & Htok & Hne & ->). simpl.
      rewrite fmap_app, <- !app_assoc. repeat split; try done.
      intros H. apply Heok, Forall_app. split; [done|].
      constructor; [|constructor]. split; [left; by split | done].
    + destruct Hrule as (n & Htok & ->). simpl.
      rewrite fmap_app, <- !app_assoc. repeat split; try done.
      intros H. apply Heok, Forall_app. split; [done|].
      constructor; [|constructor]. split; [by right | done].
    + subst st1. simpl. rewrite <- !app_assoc. done.
    + destruct Hrule as (t & Htok & ->). simpl.
      rewrite fmap_app, <- !app_assoc. repeat split; try done.
      intros H. apply Hrok, Forall_app. split; [done|].
      constructor; [|constructor]. by repeat split.
    + subst st1. done.
Qed.

End RuleFacts.

(** ** Substrings, lines and padding *)

Module TextFacts.
Import PyStr Py Service Rules PyStrFacts TokenFacts.

#[local] Arguments String.append : simpl nomatch.

Lemma append_empty_r (s : string) : s +:+ EmptyString = s.
Proof. induction s as [|a s IH]; simpl; by f_equal. Qed.

Lemma occurs_in_refl (s : string) : occurs_in s s.
Proof. exists EmptyString, EmptyString. simpl. by rewrite append_empty_r. Qed.

Lemma occurs_in_trans (a b c : string) :
  occurs_in a b → occurs_in b c → occurs_in a c.
Proof.
  intros (p1 & q1 & ->) (p2 & q2 & ->).
  exists (p2 +:+ p1), (q1 +:+ q2). by rewrite !append_assoc.
Qed.

Lemma occurs_in_cons (a : ascii) (sub s : string) :
  occurs_in sub s → occurs_in sub (String a s).
Proof. intros (p & q & ->). by exists (String a p), q. Qed.

(** [s.lstrip()] ends [s] and [s.rstrip()] starts it. *)
Lemma lstrip_suffix (s : string) : ∃ p, s = p +:+ lstrip s.
Proof.
  induction s as [|a s [p Hp]]; [by exists EmptyString|]. simpl.
  destruct (isspace a); [|by exists EmptyString].
  exists (String a p). simpl. by f_equal.
Qed.

Lemma rstrip_prefix (s : string) : ∃ q, s = rstrip s +:+ q.
Proof.
  induction s as [|a s [q Hq]]; [by exists EmptyString|]. simpl.
  destruct (rstrip s) as [|b r].
  - destruct (isspace a); [by eexists|]. exists s. done.
  - exists q. simpl. by f_equal.
Qed.

Lemma strip_occurs (s : string) : occurs_in (strip s) s.
Proof.
  unfold strip. destruct (lstrip_suffix s) as [p Hp].
  destruct (rstrip_prefix (lstrip s)) as [q Hq].
  exists p, q. by rewrite <- Hq.
Qed.

(** A piece of [s.split(c)] occurs in [s]. *)
Lemma split_char_occurs (s : string) (c : ascii) (l : string) :
  l ∈ split_char s c → occurs_in l s.
Proof.
  revert l. induction s as [|a s IH]; intros l; simpl.
  - intros ->%list_elem_of_singleton. apply occurs_in_refl.
  - destruct (Ascii.eqb a c).
    + intros [-> | Hl]%elem_of_cons.
      * by exists EmptyString, (String a s).
      * by apply occurs_in_cons, IH.
    + destruct (split_char_cons s c) as (p & ps & Hs). rewrite Hs in IH |- *.
      intros [-> | Hl]%elem_of_cons.
      * destruct (split_char_first _ _ _ _ Hs) as [_ [u Hu]].
        exists EmptyString, u. simpl. by rewrite <- Hu.
      * apply occurs_in_cons, IH. by right.
Qed.

(** [s.split(c)] has at most one piece more than [s] has characters. *)
Lemma split_char_length (s : string) (c : ascii) :
  (length (split_char s c) ≤ S (String.length s))%nat.
Proof.
  induction s as [|a s IH]; simpl; [done|].
  destruct (Ascii.eqb a c); simpl; [lia|].
  destruct (split_char s c); simpl in *; lia.
Qed.

Lemma lstrip_head (s : string) :
  lstrip s = EmptyString ∨ ∃ a t, lstrip s = String a t ∧ isspace a = false.
Proof.
  induction s as [|a s IH]; [by left|]. simpl.
  destruct (isspace a) eqn:Ha; [done|]. right. by eexists _, _.
Qed.

Lemma rstrip_idempotent (s : string) : rstrip (rstrip s) = rstrip s.
Proof.
  induction s as [|a s IH]; [done|]. simpl.
  destruct (rstrip s) as [|b r] eqn:Hr.
  - destruct (isspace a) eqn:Ha; [done|]. simpl. by rewrite Ha.
  - change (rstrip (String a (String b r)))
      with (match rstrip (String b r) with
            | EmptyString => if isspace a then EmptyString else String a EmptyString
            | String b' r' => String a (String b' r')
            end).
    by rewrite IH.
Qed.

(** Stripping twice is stripping once. *)
Lemma strip_idempotent (s : string) : strip (strip s) = strip s.
Proof.
  unfold strip. destruct (lstrip_head s) as [-> | (a & t & -> & Ha)]; [done|].
  assert (∃ t', rstrip (String a t) = String a t') as [t' Ht'].
  { simpl. destruct (rstrip t); [rewrite Ha|]; by eexists. }
  rewrite Ht'. simpl lstrip. rewrite Ha, <- Ht'. apply rstrip_idempotent.
Qed.

Lemma lstrip_pad (p s : string) :
  all_space p = true → lstrip (p +:+ s) = lstrip s.
Proof.
  induction p as [|a p IH]; [done|]. simpl.
  intros [Ha Hp]%andb_true_iff. rewrite Ha. by apply IH.
Qed.

Lemma rstrip_pad (s q : string) :
  all_space q = true → rstrip (s +:+ q) = rstrip s.
Proof.
  intros Hq. induction s as [|a s IH]; simpl.
  - induction q as [|b q IHq]; [done|]. simpl in *.
    apply andb_true_iff in Hq as [Hb Hq]. by rewrite (IHq Hq), Hb.
  - by rewrite IH.
Qed.

(** Blank padding around a line does not change the stripped line. *)
Lemma strip_pad (p s q : string) :
  all_space p = true → all_space q = true → strip (p +:+ s +:+ q) = strip s.
Proof.
  intros Hp Hq. unfold strip. rewrite lstrip_pad by done.
  destruct (lstrip_suffix s) as [pre Hs].
  destruct (lstrip_head s) as [He | (a & t & He & Ha)].
  - assert (all_space s = true) as Hblank.
    { clear -He. induction s as [|a s IH]; [done|]. simpl in *.
      destruct (isspace a); [by apply IH | done]. }
    rewrite He, lstrip_all_space; [done|]. clear -Hblank Hq.
    induction s as [|a s IH]; simpl in *; [done|].
    apply andb_true_iff in Hblank as [-> Hs]. by apply IH.
  - assert (lstrip (s +:+ q) = lstrip s +:+ q) as ->.
    { clear -He. revert He. induction s as [|b s IH]; [done|]. simpl.
      destruct (isspace b); [apply IH | done]. }
    by apply rstrip_pad.
Qed.

End TextFacts.

(** ** The structure analysis, described by the rules *)

Module DescribeFacts.
Import PyStr Py Service Rules PyStrFacts PyFacts ScanFacts TagFacts TokenFacts
  RuleFacts TextFacts.

(** A line yields at most one record. *)
Lemma declared_launched_length (lines : list string) (i : Z) :
  (length (declared i lines) + length (launched i lines) ≤ length lines)%nat.
Proof.
  revert i. induction lines as [|raw rest IH]; intros i; simpl; [done|].
  specialize (IH (i + 1)). rewrite !length_app.
  destruct (rule_of raw); simpl; lia.
Qed.

Lemma declared_range (lines : list string) (i : Z) :
  Forall (λ p, i < p.2 ≤ i + len lines) (declared i lines).
Proof.
  revert i. induction lines as [|raw rest IH]; intros i; simpl; [constructor|].
  assert (Forall (λ p : string * Z, i < p.2 ≤ i + len (raw :: rest))
            (declared (i + 1) rest)) as Hrest.
  { eapply Forall_impl; [apply IH|]. unfold len. simpl length. intros p Hp.
    simpl in Hp. lia. }
  assert (i < i + 1 ≤ i + len (raw :: rest)) by (unfold len; simpl length; lia).
  destruct (rule_of raw); simpl; try done; by constructor.
Qed.

Lemma launched_range (lines : list string) (i : Z) :
  Forall (λ n, i < n ≤ i + len lines) (launched i lines).
Proof.
  revert i. induction lines as [|raw rest IH]; intros i; simpl; [constructor|].
  assert (Forall (λ n, i < n ≤ i + len (raw :: rest)) (launched (i + 1) rest))
    as Hrest.
  { eapply Forall_impl; [apply IH|]. unfold len. simpl length. intros n Hn.
    simpl in Hn. lia. }
  assert (i < i + 1 ≤ i + len (raw :: rest)) by (unfold len; simpl length; lia).
  destruct (rule_of raw); simpl; try done; by constructor.
Qed.

(** An entity kind and line number are declared exactly by the line of
    that number, under the rule of that kind. *)
Lemma elem_of_declared (lines : list string) (i : Z) (k : string) (m : Z) :
  (k, m) ∈ declared i lines
  ↔ ∃ (n : nat) raw,
      lines !! n = Some raw ∧ m = i + Z.of_nat n + 1
      ∧ (k = "function" ∧ rule_of raw = FunctionRule
         ∨ k = "type" ∧ rule_of raw = TypeRule).
Proof.
  revert i. induction lines as [|raw rest IH]; intros i; simpl.
  - split; [by intros ?%elem_of_nil | by intros (n & raw & ? & _)].
  - rewrite elem_of_app, IH. split.
    + intros [Hhead | (n & raw' & Hn & -> & Hk)].
      * exists 0%nat, raw. split; [done|].
        destruct (rule_of raw);
          try (by apply elem_of_nil in Hhead);
          apply list_elem_of_singleton in Hhead; injection Hhead as -> ->;
          (split; [lia | tauto]).
      * exists (S n), raw'. split; [done|]. split; [lia | done].
    + intros (n & raw' & Hn & -> & Hk). destruct n as [|n]; simpl in Hn.
      * injection Hn as ->. left.
        destruct Hk as [[-> ->] | [-> ->]]; apply list_elem_of_singleton;
          f_equal; lia.
      * right. exists n, raw'. split; [done|]. split; [lia | done].
Qed.

Lemma elem_of_launched (lines : list string) (i m : Z) :
  m ∈ launched i lines
  ↔ ∃ (n : nat) raw,
      lines !! n = Some raw ∧ m = i + Z.of_nat n + 1
      ∧ rule_of raw = GoroutineRule.
Proof.
  revert i. induction lines as [|raw rest IH]; intros i; simpl.
  - split; [by intros ?%elem_of_nil | by intros (n & raw & ? & _)].
  - rewrite elem_of_app, IH. split.
    + intros [Hhead | (n & raw' & Hn & -> & Hk)].
      * exists 0%nat, raw. split; [done|].
        destruct (rule_of raw);
          try (by apply elem_of_nil in Hhead);
          apply list_elem_of_singleton in Hhead as ->; (split; [lia | done]).
      * exists (S n), raw'. split; [done|]. split; [lia | done].
    + intros (n & raw' & Hn & -> & Hk). destruct n as [|n]; simpl in Hn.
      * injection Hn as ->. left. rewrite Hk.
        apply list_elem_of_singleton. lia.
      * right. exists n, raw'. split; [done|]. split; [lia | done].
Qed.

(** The loop raises [goroutine_launch] exactly when it records a
    relationship. *)
Lemma goroutine_tag_launched (lines : list string) (i : Z) :
  "goroutine_launch" ∈ line_tags lines ↔ launched i lines ≠ [].
Proof.
  revert i. induction lines as [|raw rest IH]; intros i; simpl.
  - split; [by intros ?%elem_of_nil | done].
  - specialize (IH (i + 1)). destruct (rule_of raw); simpl; try done.
    + rewrite elem_of_cons. split; [intros [|]; [done | by apply IH] | ].
      intros H. right. by apply IH.
    + split; [done | intros _; by left].
Qed.

Lemma channel_tag (lines : list string) :
  "channel_usage" ∈ line_tags lines
  ↔ ∃ raw, raw ∈ lines ∧ rule_of raw = ChannelRule.
Proof.
  induction lines as [|raw rest IH]; simpl.
  - split; [by intros ?%elem_of_nil | by intros (raw & ?%elem_of_nil & _)].
  - assert ((∃ raw0, raw0 ∈ rest ∧ rule_of raw0 = ChannelRule)
            → ∃ raw0, raw0 ∈ raw :: rest ∧ rule_of raw0 = ChannelRule) as Hweak.
    { intros (raw0 & H0 & H1). exists raw0. split; [by right | done]. }
    assert (rule_of raw ≠ ChannelRule
            → (∃ raw0, raw0 ∈ raw :: rest ∧ rule_of raw0 = ChannelRule)
            → ∃ raw0, raw0 ∈ rest ∧ rule_of raw0 = ChannelRule) as Hstrong.
    { intros Hne (raw0 & [-> | H0]%elem_of_cons & H1); [done | by exists raw0]. }
    destruct (rule_of raw) eqn:Hrule; simpl;
      try (split; [intros H; by apply Hweak, IH | intros H; by apply IH, Hstrong]).
    + split; [intros _; exists raw; split; [by left | done] | intros _; by left].
    + rewrite elem_of_cons. split.
      * intros [|H]; [done | by apply Hweak, IH].
      * intros H. right. by apply IH, Hstrong.
Qed.

Lemma line_tags_vocabulary (lines : list string) (t : string) :
  t ∈ line_tags lines → t = "channel_usage" ∨ t = "goroutine_launch".
Proof.
  induction lines as [|raw rest IH]; simpl; [by intros ?%elem_of_nil|].
  destruct (rule_of raw); simpl; try done;
    intros [-> | H]%elem_of_cons; auto.
Qed.

(** The guard a channel line passed. *)
Lemma rule_of_channel (raw : string) :
  rule_of raw = ChannelRule →
  contains (strip raw) "chan " || contains (strip raw) "make(chan" = true.
Proof.
  unfold rule_of.
  destruct (startswith (strip raw) "func " || startswith (strip raw) "def "); [done|].
  destruct (startswith (strip raw) "type " || startswith (strip raw) "class "); [done|].
  destruct (contains (strip raw) "chan " || contains (strip raw) "make(chan"); [done|].
  by destruct (startswith (strip raw) "go ").
Qed.

(** [analyze_code_structure] returns the records and the tags the rules
    describe. *)
Lemma analyze_code_structure_described (code_content : string) :
  ∃ d es rs,
    analyze_code_structure code_content = Ok d
    ∧ d !! "entities" = Some (VEntities es)
    ∧ d !! "entities_count" = Some (VInt (len es))
    ∧ d !! "relationships" = Some (VRelationships rs)
    ∧ d !! "relationships_count" = Some (VInt (len rs))
    ∧ d !! "patterns"
      = Some (VSet (list_to_set
                      (common_patterns_of code_content
                         (line_tags (split_char code_content LF)))))
    ∧ kind_and_line <$> es = declared 0 (split_char code_content LF)
    ∧ r_line <$> rs = launched 0 (split_char code_content LF)
    ∧ Forall entity_ok es
    ∧ Forall relationship_ok rs.
Proof.
  destruct (analyze_code_structure_fields code_content)
    as (st & d & Hst & Hd & Hec & Hrc & He & Hr & Hp & _).
  destruct (scan_lines_described (split_char code_content LF) 0 empty_scan)
    as (st' & Hst' & Hkl & Hrl & Hpat & Heok & Hrok).
  rewrite Hst in Hst'. injection Hst' as <-.
  exists d, (entities st), (relationships st).
  rewrite Hpat in Hp. repeat split; try done.
  - by apply Heok.
  - by apply Hrok.
Qed.

End DescribeFacts.

(** ** Quotients, scores and the tag lists once more *)

Module ScoreFacts.
Import PyStr Py PyFloat Service Spec Rules Report PyStrFacts PyFacts PyFloatFacts
  MergeFacts TagFacts TextFacts.

Lemma div_eucl_shift (p : positive) :
  Z.div_eucl (Z.shiftl (Z.pos p) 53) (Z.pos p) = (2 ^ 53, 0).
Proof.
  rewrite Z.shiftl_mul_pow2 by lia.
  destruct (Z.div_eucl (Z.pos p * 2 ^ 53) (Z.pos p)) as [q r] eqn:E.
  assert (q = Z.pos p * 2 ^ 53 / Z.pos p) as -> by (unfold Z.div; by rewrite E).
  assert (r = (Z.pos p * 2 ^ 53) mod Z.pos p) as ->
    by (unfold Z.modulo; by rewrite E).
  rewrite Z.mul_comm, Z.div_mul, Z.mod_mul by lia. done.
Qed.

(** [n / n] is [1.0] for a positive [int]. *)
Lemma nearest_quotient_diag (n : Z) : 0 < n → nearest_quotient n n = 1%float.
Proof.
  intros Hn. destruct n as [|p|p]; try lia.
  unfold nearest_quotient, SF_of_Z, SFdiv, SFdiv_core_binary.
  replace (Zdigits2 (Z.pos p) + 0 - (Zdigits2 (Z.pos p) + 0)) with 0 by lia.
  change (Z.min (fexp prec emax 0) (0 - 0)) with (-53).
  change (0 - 0 - -53) with 53. cbv iota.
  change (IntDef.Z.div_eucl (IntDef.Z.shiftl (Z.pos p) 53) (Z.pos p))
    with (Z.div_eucl (Z.shiftl (Z.pos p) 53) (Z.pos p)).
  rewrite div_eucl_shift.
  unfold new_location. destruct (Z.even (Z.pos p)); reflexivity.
Qed.

(** [0 / b] is [0.0] for a positive [int]. *)
Lemma nearest_quotient_zero (b : Z) : 0 < b → nearest_quotient 0 b = 0%float.
Proof. intros Hb. destruct b as [|p|p]; try lia. reflexivity. Qed.

Lemma overflow_threshold_large : 2 ^ 63 + 5 < overflow_threshold.
Proof. by vm_compute. Qed.

(** The score of a structure with integer counts and a list of design
    patterns, all within the range of a float. *)
Lemma calculate_complexity_score_counts
    (structure patterns : gmap string value) (e r : Z) (l : list string) :
  structure !! "entities_count" = Some (VInt e) →
  structure !! "relationships_count" = Some (VInt r) →
  patterns !! "design_patterns" = Some (VList l) →
  Z.abs e < overflow_threshold → Z.abs r < overflow_threshold →
  len l < overflow_threshold →
  calculate_complexity_score structure patterns
  = Ok (complexity_spec e r (len l)).
Proof.
  intros He Hr Hl Hbe Hbr Hbl. unfold calculate_complexity_score, getitem.
  rewrite He, Hr, Hl.
  rewrite bind_Ok. cbv beta. simpl mul_float.
  rewrite (int_mul_in_range e) by done.
  rewrite !bind_Ok. cbv beta. simpl mul_float.
  rewrite (int_mul_in_range r) by done.
  rewrite !bind_Ok. cbv beta. simpl len_value.
  rewrite bind_Ok, (int_mul_in_range (len l)) by (unfold len in *; lia).
  by rewrite bind_Ok.
Qed.

(** The design patterns come in a fixed order, each at most once. *)
Lemma design_patterns_sublist (code_content : string) :
  design_patterns_of code_content
    `sublist_of` ["worker_pool"; "pipeline"; "producer_consumer"; "singleton"].
Proof.
  unfold design_patterns_of.
  destruct (forallb _ _), (contains code_content "chan" && _),
    (contains code_content "Producer" && _), (contains code_content "sync.Once" || _);
    simpl;
    repeat first [apply sublist_nil | apply sublist_skip | apply sublist_cons].
Qed.

(** Lower-casing leaves whitespace as it is. *)
Lemma lower_char_space (a : ascii) : isspace a = true → lower_char a = a.
Proof.
  destruct a as [[] [] [] [] [] [] [] []]; vm_compute; intros H;
    first [reflexivity | discriminate H].
Qed.

Lemma lower_all_space (s : string) : all_space s = true → lower s = s.
Proof.
  induction s as [|a s IH]; [done|]. simpl.
  intros [Ha Hs]%andb_true_iff. by rewrite lower_char_space, IH.
Qed.

(** A blank text shows no design pattern. *)
Lemma design_patterns_of_blank (code_content : string) :
  all_space code_content = true → design_patterns_of code_content = [].
Proof.
  intros H. unfold design_patterns_of. rewrite (lower_all_space _ H). simpl forallb.
  rewrite (contains_all_space code_content "c" "han" H eq_refl).
  rewrite (contains_all_space code_content "P" "roducer" H eq_refl).
  rewrite (contains_all_space code_content "s" "ync.Once" H eq_refl).
  by rewrite (contains_all_space code_content "o" "nce" H eq_refl).
Qed.

(** Membership in the pattern set of the structure analysis. *)
Lemma base_pattern_mem (code_content : string) (tags : list string) (t : string) :
  t ∈ (list_to_set (common_patterns_of code_content tags) : gset string)
  ↔ t ∈ tags
    ∨ t = "select_pattern" ∧ occurs_in "select {" code_content
    ∨ t = "wait_group_pattern" ∧ occurs_in "sync.WaitGroup" code_content
    ∨ t = "context_pattern" ∧ occurs_in "context.Context" code_content.
Proof.
  rewrite elem_of_list_to_set. unfold common_patterns_of.
  rewrite !elem_of_tag_if. tauto.
Qed.

Section merge_explicit.
Variables A B : gmap string value.
Hypothesis HA : is_analysis_result A = true.
Hypothesis HB : is_analysis_result B = true.

(** The report of the merger, insight lines included. *)
Lemma generate_cross_language_insights_explicit :
  ∃ na nb,
    as_int (get A "entities_count" (VInt 0)) = Ok na
    ∧ as_int (get B "entities_count" (VInt 0)) = Ok nb
    ∧ generate_cross_language_insights A B
      = Ok (mkReport
              (append_if_nonempty (patterns_of B ∖ patterns_of A)
                 (GoSpecific (patterns_of B ∖ patterns_of A))
                 (append_if_nonempty (patterns_of A ∖ patterns_of B)
                    (PythonSpecific (patterns_of A ∖ patterns_of B))
                    (append_if_nonempty (patterns_of A ∩ patterns_of B)
                       (CommonPatterns (patterns_of A ∩ patterns_of B))
                       (if nb <? na then [PythonMoreComplex]
                        else if na <? nb then [GoMoreComplex]
                        else [SimilarComplexity]))))
              (patterns_of A ∩ patterns_of B)
              (patterns_of A ∖ patterns_of B)
              (patterns_of B ∖ patterns_of A)
              (similarity_spec (patterns_of A) (patterns_of B))).
Proof.
  destruct (entity_count_is_int A HA) as [na Hna].
  destruct (entity_count_is_int B HB) as [nb Hnb].
  exists na, nb. split; [done|]. split; [done|].
  unfold generate_cross_language_insights.
  rewrite Hna, Hnb, !bind_Ok, (patterns_as_set A HA), (patterns_as_set B HB), !bind_Ok.
  pose proof (common_size_bound (patterns_of A) (patterns_of B)) as Hsz.
  rewrite truediv_fraction by lia. by rewrite bind_Ok.
Qed.

End merge_explicit.

End ScoreFacts.

(** ** The report and the handlers *)

Module HandlerFacts.
Import PyStr Py PyFloat Service Spec Rules Report Handlers PyStrFacts PyFacts
  PyFloatFacts ScanFacts TagFacts TextFacts DescribeFacts ScoreFacts.

(** The report of a text of admissible length, field by field. *)
Lemma generate_analysis_report_ok (code_content : string) :
  Z.of_nat (String.length code_content) < 2 ^ 63 →
  ∃ d es rs,
    analyze_code_structure code_content = Ok d
    ∧ d !! "entities" = Some (VEntities es)
    ∧ d !! "relationships" = Some (VRelationships rs)
    ∧ generate_analysis_report code_content
      = Ok (mkAnalysisReport d (extract_design_patterns code_content)
              (mkSummary (VInt (len es)) (VInt (len rs))
                 (len (design_patterns_of code_content))
                 (complexity_spec (len es) (len rs)
                    (len (design_patterns_of code_content))))
              "comprehensive_report").
Proof.
  intros Hlen.
  destruct (analyze_code_structure_described code_content)
    as (d & es & rs & Hd & He & Hec & Hr & Hrc & _ & Hkl & Hrl & _).
  assert (len es + len rs ≤ Z.of_nat (String.length code_content) + 1) as Hcount.
  { pose proof (declared_launched_length (split_char code_content LF) 0) as H.
    rewrite <- Hkl, <- Hrl, !length_fmap in H.
    pose proof (split_char_length code_content LF). unfold len. lia. }
  pose proof (sublist_length _ _ (design_patterns_sublist code_content)) as Hdp.
  simpl length in Hdp.
  pose proof overflow_threshold_large as Hbig.
  assert (extract_design_patterns code_content !! "design_patterns"
          = Some (VList (design_patterns_of code_content))) as Hl by done.
  exists d, es, rs. split; [done|]. split; [done|]. split; [done|].
  unfold generate_analysis_report. rewrite Hd, bind_Ok. cbv beta zeta.
  unfold getitem. rewrite Hec, Hrc, Hl, !bind_Ok. cbv beta. simpl len_value.
  rewrite bind_Ok.
  rewrite (calculate_complexity_score_counts d _ (len es) (len rs)
             (design_patterns_of code_content))
    by (try done; unfold len in *; lia).
  by rewrite bind_Ok.
Qed.

(** No action raises on data of admissible length. *)
Lemma run_action_ok (action input_data : string) :
  Z.of_nat (String.length input_data) < 2 ^ 63 →
  ∃ result, run_action action input_data = Ok result.
Proof.
  intros Hlen. unfold run_action.
  destruct (String.eqb action "analyze").
  { destruct (analyze_code_structure_fields input_data) as (st & d & _ & -> & _).
    by eexists. }
  destruct (String.eqb action "extract_patterns"); [by eexists|].
  destruct (String.eqb action "generate_report"); [|by eexists].
  destruct (generate_analysis_report_ok input_data Hlen) as (d & es & rs & _ & _ & _ & ->).
  by eexists.
Qed.

(** Different integers print differently. *)
Lemma str_int_inj (m n : Z) : str_int m = str_int n → m = n.
Proof.
  unfold str_int. intros H.
  apply (f_equal NilEmpty.int_of_string) in H. rewrite !NilEmpty.isi in H.
  injection H as H. apply (f_equal Z.of_int) in H. by rewrite !DecimalZ.of_to in H.
Qed.

Lemma prefixed_inj (prefix a b : string) : prefix +:+ a = prefix +:+ b → a = b.
Proof. induction prefix as [|c p IH]; [done|]. intros [= H]. by apply IH. Qed.

End HandlerFacts.

(** ** Further properties of the analysis functions *)

Module Extras.
Import PyStr Py Service Spec Rules Report Handlers Samples PyStrFacts PyFacts
  PyFloatFacts
  ScanFacts MergeFacts TagFacts TokenFacts RuleFacts TextFacts DescribeFacts
  ScoreFacts HandlerFacts.

(** X1. Detection is sound and complete for the rules: the structure
    analysis holds an entity of kind [function] (of kind [type]) with
    line number [n + 1] exactly when line [n] of the text, counted from
    0, starts with [func ] or [def ] once stripped (or else with [type ]
    or [class ]), and a relationship with line number [n + 1] exactly
    when that line takes the goroutine rule. *)
Theorem detection_sound_and_complete (code_content : string) :
  ∃ d es rs,
    analyze_code_structure code_content = Ok d
    ∧ d !! "entities" = Some (VEntities es)
    ∧ d !! "relationships" = Some (VRelationships rs)
    ∧ (∀ (n : nat) kind,
          (∃ name, mkEntity kind name (Z.of_nat n + 1) ∈ es)
          ↔ ∃ raw, split_char code_content LF !! n = Some raw
              ∧ (kind = "function" ∧ rule_of raw = FunctionRule
                 ∨ kind = "type" ∧ rule_of raw = TypeRule))
    ∧ (∀ n : nat,
          (∃ target,
              mkRelationship "launches" "current_function" target
                (Z.of_nat n + 1) ∈ rs)
          ↔ ∃ raw, split_char code_content LF !! n = Some raw
              ∧ rule_of raw = GoroutineRule).
Proof.
  destruct (analyze_code_structure_described code_content)
    as (d & es & rs & Hd & He & _ & Hr & _ & _ & Hkl & Hrl & _ & Hrok).
  exists d, es, rs. split; [done|]. split; [done|]. split; [done|]. split.
  - intros n kind.
    assert ((∃ name, mkEntity kind name (Z.of_nat n + 1) ∈ es)
            ↔ (kind, Z.of_nat n + 1) ∈ kind_and_line <$> es) as ->.
    { rewrite list_elem_of_fmap. split.
      - intros [name H]. by exists (mkEntity kind name (Z.of_nat n + 1)).
      - intros ([k name l] & [= -> ->] & H). by exists name. }
    rewrite Hkl, elem_of_declared. split.
    + intros (n' & raw & Hn' & Heq & Hk).
      assert (n' = n) as -> by lia. by exists raw.
    + intros (raw & Hn & Hk). exists n, raw. split; [done|]. split; [lia | done].
  - intros n.
    assert ((∃ target,
                mkRelationship "launches" "current_function" target
                  (Z.of_nat n + 1) ∈ rs)
            ↔ Z.of_nat n + 1 ∈ r_line <$> rs) as ->.
    { rewrite list_elem_of_fmap. split.
      - intros [target H]. eexists. split; [|exact H]. done.
      - intros ([ty src target l] & Hl & H). simpl in Hl. subst l.
        rewrite Forall_forall in Hrok. destruct (Hrok _ H) as (Hty & Hsrc & _).
        simpl in Hty, Hsrc. subst. by exists target. }
    rewrite Hrl, elem_of_launched. split.
    + intros (n' & raw & Hn' & Heq & Hk).
      assert (n' = n) as -> by lia. by exists raw.
    + intros (raw & Hn & Hk). exists n, raw. split; [done|]. split; [lia | done].
Qed.

(** X2. Every entity is a function with a name that is not empty or a
    type, and its name holds no whitespace and no opening parenthesis;
    every relationship is a [launches] edge from [current_function] whose
    target holds no whitespace and no opening parenthesis. *)
Theorem records_well_formed (code_content : string) :
  ∃ d es rs,
    analyze_code_structure code_content = Ok d
    ∧ d !! "entities" = Some (VEntities es)
    ∧ d !! "relationships" = Some (VRelationships rs)
    ∧ Forall entity_ok es
    ∧ Forall relationship_ok rs.
Proof.
  destruct (analyze_code_structure_described code_content)
    as (d & es & rs & Hd & He & _ & Hr & _ & _ & _ & _ & Heok & Hrok).
  by exists d, es, rs.
Qed.

(** X3. The entity count and the relationship count together never
    exceed the number of lines of the text, which is at most its length
    plus one, and every recorded line number lies between 1 and the
    number of lines. *)
Theorem counts_bounded_by_lines (code_content : string) :
  ∃ d es rs,
    analyze_code_structure code_content = Ok d
    ∧ d !! "entities" = Some (VEntities es)
    ∧ d !! "entities_count" = Some (VInt (len es))
    ∧ d !! "relationships" = Some (VRelationships rs)
    ∧ d !! "relationships_count" = Some (VInt (len rs))
    ∧ len es + len rs ≤ len (split_char code_content LF)
    ∧ len (split_char code_content LF) ≤ Z.of_nat (String.length code_content) + 1
    ∧ Forall (λ e, 1 ≤ e_line e ≤ len (split_char code_content LF)) es
    ∧ Forall (λ r, 1 ≤ r_line r ≤ len (split_char code_content LF)) rs.
Proof.
  destruct (analyze_code_structure_described code_content)
    as (d & es & rs & Hd & He & Hec & Hr & Hrc & _ & Hkl & Hrl & _).
  exists d, es, rs. repeat split; try done.
  - pose proof (declared_launched_length (split_char code_content LF) 0) as H.
    rewrite <- Hkl, <- Hrl, !length_fmap in H. unfold len. lia.
  - pose proof (split_char_length code_content LF). unfold len. lia.
  - pose proof (declared_range (split_char code_content LF) 0) as H.
    rewrite <- Hkl, Forall_fmap in H. eapply Forall_impl; [exact H|].
    intros e. simpl. lia.
  - pose proof (launched_range (split_char code_content LF) 0) as H.
    rewrite <- Hrl, Forall_fmap in H. eapply Forall_impl; [exact H|].
    intros r. simpl. lia.
Qed.

(** X4. The pattern set of the structure analysis holds only the five
    base tags. It holds [goroutine_launch] exactly when there is a
    relationship, [channel_usage] exactly when some line takes the
    channel rule, and [select_pattern], [wait_group_pattern] and
    [context_pattern] exactly when the text contains [select {],
    [sync.WaitGroup] and [context.Context]. *)
Theorem base_patterns_characterised (code_content : string) :
  ∃ d X rs,
    analyze_code_structure code_content = Ok d
    ∧ d !! "patterns" = Some (VSet X)
    ∧ d !! "relationships" = Some (VRelationships rs)
    ∧ (∀ t, t ∈ X → t ∈ base_vocabulary)
    ∧ ("goroutine_launch" ∈ X ↔ rs ≠ [])
    ∧ ("channel_usage" ∈ X
       ↔ ∃ raw, raw ∈ split_char code_content LF ∧ rule_of raw = ChannelRule)
    ∧ ("select_pattern" ∈ X ↔ occurs_in "select {" code_content)
    ∧ ("wait_group_pattern" ∈ X ↔ occurs_in "sync.WaitGroup" code_content)
    ∧ ("context_pattern" ∈ X ↔ occurs_in "context.Context" code_content).
Proof.
  destruct (analyze_code_structure_described code_content)
    as (d & es & rs & Hd & _ & _ & Hr & _ & Hp & _ & Hrl & _).
  eexists d, _, rs. split; [done|]. split; [exact Hp|]. split; [done|].
  assert (∀ t, t ∈ (list_to_set (common_patterns_of code_content
                                   (line_tags (split_char code_content LF)))
                    : gset string)
               ↔ t ∈ line_tags (split_char code_content LF)
                 ∨ t = "select_pattern" ∧ occurs_in "select {" code_content
                 ∨ t = "wait_group_pattern" ∧ occurs_in "sync.WaitGroup" code_content
                 ∨ t = "context_pattern" ∧ occurs_in "context.Context" code_content)
    as Hmem.
  { intros t. rewrite elem_of_list_to_set. unfold common_patterns_of.
    rewrite !elem_of_tag_if. tauto. }
  assert (∀ t, t ∈ line_tags (split_char code_content LF) →
               t = "channel_usage" ∨ t = "goroutine_launch") as Hvoc
    by apply line_tags_vocabulary.
  split; [|split; [|split; [|split; [|split]]]].
  - intros t [Ht | [[-> _] | [[-> _] | [-> _]]]]%Hmem.
    + destruct (Hvoc t Ht) as [-> | ->]; unfold base_vocabulary;
        rewrite !elem_of_cons; tauto.
    + unfold base_vocabulary. rewrite !elem_of_cons. tauto.
    + unfold base_vocabulary. rewrite !elem_of_cons. tauto.
    + unfold base_vocabulary. rewrite !elem_of_cons. tauto.
  - rewrite Hmem, (goroutine_tag_launched _ 0), <- Hrl. split.
    + intros [H | [[? _] | [[? _] | [? _]]]]; try done.
      intros ->. by apply H.
    + intros H. left. by destruct rs.
  - rewrite Hmem, channel_tag. split; [|by left].
    by intros [H | [[? _] | [[? _] | [? _]]]].
  - rewrite Hmem. split; [|by right; left].
    intros [H | [[_ H] | [[? _] | [? _]]]]; try done.
    by destruct (Hvoc _ H).
  - rewrite Hmem. split; [|by right; right; left].
    intros [H | [[? _] | [[_ H] | [? _]]]]; try done.
    by destruct (Hvoc _ H).
  - rewrite Hmem. split; [|by right; right; right].
    intros [H | [[? _] | [[? _] | [_ H]]]]; try done.
    by destruct (Hvoc _ H).
Qed.

(** X5. Whenever the structure analysis reports both [channel_usage]
    and [select_pattern] for a text, the design-pattern extraction
    reports [pipeline] for it. *)
Theorem channel_and_select_give_pipeline (code_content : string) :
  ∃ d X l,
    analyze_code_structure code_content = Ok d
    ∧ d !! "patterns" = Some (VSet X)
    ∧ extract_design_patterns code_content !! "design_patterns" = Some (VList l)
    ∧ ("channel_usage" ∈ X → "select_pattern" ∈ X → "pipeline" ∈ l).
Proof.
  destruct (analyze_code_structure_described code_content)
    as (d & es & rs & Hd & _ & _ & _ & _ & Hp & _).
  eexists d, _, (design_patterns_of code_content).
  split; [done|]. split; [exact Hp|]. split; [done|].
  rewrite !base_pattern_mem. intros Hchan Hsel.
  assert (occurs_in "chan" code_content) as Hc.
  { destruct Hchan as [H | [[? _] | [[? _] | [? _]]]]; try done.
    apply channel_tag in H as (raw & Hraw & Hrule).
    apply rule_of_channel in Hrule.
    eapply occurs_in_trans; [|by eapply split_char_occurs].
    eapply occurs_in_trans; [|apply strip_occurs].
    apply orb_true_iff in Hrule as [H | H]; apply contains_spec in H.
    - eapply occurs_in_trans; [|exact H]. by exists EmptyString, " ".
    - eapply occurs_in_trans; [|exact H]. by exists "make(", EmptyString. }
  assert (occurs_in "select" code_content) as Hs.
  { destruct Hsel as [H | [[_ H] | [[? _] | [? _]]]]; try done.
    - by destruct (line_tags_vocabulary _ _ H).
    - eapply occurs_in_trans; [|exact H]. by exists EmptyString, " {". }
  apply contains_spec in Hc, Hs. unfold design_patterns_of.
  rewrite !elem_of_append_if, Hc, Hs. left. left. right. done.
Qed.

(** X6. Blank padding before and after a line does not change what the
    loop records for it: indentation and trailing whitespace never
    matter. *)
Theorem padding_irrelevant (i : Z) (pad1 raw pad2 : string) (st : scan) :
  all_space pad1 = true → all_space pad2 = true →
  scan_line i (pad1 +:+ raw +:+ pad2) st = scan_line i raw st.
Proof. intros H1 H2. unfold scan_line. by rewrite strip_pad. Qed.

Lemma padding_irrelevant_witness :
  scan_line 1 ("    " +:+ "go Bar()" +:+ "  ") empty_scan
  = scan_line 1 "go Bar()" empty_scan.
Proof. apply padding_irrelevant; reflexivity. Defined.

(** X7. On every text shorter than [2^63] characters the analysis report
    is returned: its parts are the structure analysis and the design
    patterns of the text, its totals are the lengths of the entity and
    relationship lists, its pattern count is the length of the
    design-pattern list, and its score is that of the three counts. *)
Theorem report_returns (code_content : string) :
  Z.of_nat (String.length code_content) < 2 ^ 63 →
  ∃ rep d es rs l,
    generate_analysis_report code_content = Ok rep
    ∧ analyze_code_structure code_content = Ok d
    ∧ d !! "entities" = Some (VEntities es)
    ∧ d !! "relationships" = Some (VRelationships rs)
    ∧ extract_design_patterns code_content !! "design_patterns" = Some (VList l)
    ∧ Report.structure rep = d
    ∧ Report.patterns rep = extract_design_patterns code_content
    ∧ total_entities (summary rep) = VInt (len es)
    ∧ total_relationships (summary rep) = VInt (len rs)
    ∧ Report.design_patterns (summary rep) = len l
    ∧ complexity_score (summary rep) = complexity_spec (len es) (len rs) (len l).
Proof.
  intros Hlen.
  destruct (generate_analysis_report_ok code_content Hlen)
    as (d & es & rs & Hd & He & Hr & ->).
  eexists _, d, es, rs, (design_patterns_of code_content). by repeat split.
Qed.

Lemma report_returns_witness :
  ∃ rep d es rs l,
    generate_analysis_report scenario1 = Ok rep
    ∧ analyze_code_structure scenario1 = Ok d
    ∧ d !! "entities" = Some (VEntities es)
    ∧ d !! "relationships" = Some (VRelationships rs)
    ∧ extract_design_patterns scenario1 !! "design_patterns" = Some (VList l)
    ∧ Report.structure rep = d
    ∧ Report.patterns rep = extract_design_patterns scenario1
    ∧ total_entities (summary rep) = VInt (len es)
    ∧ total_relationships (summary rep) = VInt (len rs)
    ∧ Report.design_patterns (summary rep) = len l
    ∧ complexity_score (summary rep) = complexity_spec (len es) (len rs) (len l).
Proof. apply report_returns. reflexivity. Defined.

(** X8. On a blank text the analysis report has zero entities, zero
    relationships, no design pattern and the score [0.0]. *)
Theorem blank_report (code_content : string) :
  all_space code_content = true →
  ∃ rep,
    generate_analysis_report code_content = Ok rep
    ∧ total_entities (summary rep) = VInt 0
    ∧ total_relationships (summary rep) = VInt 0
    ∧ Report.design_patterns (summary rep) = 0
    ∧ Report.patterns rep !! "design_patterns" = Some (VList [])
    ∧ complexity_score (summary rep) = 0%float.
Proof.
  intros Hblank. unfold generate_analysis_report, analyze_code_structure.
  rewrite scan_lines_blank by by apply split_char_all_space.
  rewrite !bind_Ok. cbv zeta. unfold extract_design_patterns.
  rewrite common_patterns_of_blank, design_patterns_of_blank by done.
  eexists. split; [reflexivity|]. by repeat split.
Qed.

Lemma blank_report_witness :
  ∃ rep,
    generate_analysis_report (String " " (String LF EmptyString)) = Ok rep
    ∧ total_entities (summary rep) = VInt 0
    ∧ total_relationships (summary rep) = VInt 0
    ∧ Report.design_patterns (summary rep) = 0
    ∧ Report.patterns rep !! "design_patterns" = Some (VList [])
    ∧ complexity_score (summary rep) = 0%float.
Proof. apply blank_report. reflexivity. Defined.

(** X9. The three sets of the insight report split the patterns of the
    two analysis results: the common and the Python-only patterns make
    up the patterns of the first result, the common and the Go-only
    patterns those of the second, and the three sets are pairwise
    disjoint. *)
Theorem unique_sets_partition (A B : gmap string value) :
  is_analysis_result A = true → is_analysis_result B = true →
  ∃ rep,
    generate_cross_language_insights A B = Ok rep
    ∧ common_patterns rep ∪ python_unique rep = patterns_of A
    ∧ common_patterns rep ∪ go_unique rep = patterns_of B
    ∧ common_patterns rep ## python_unique rep
    ∧ common_patterns rep ## go_unique rep
    ∧ python_unique rep ## go_unique rep.
Proof.
  intros HA HB.
  destruct (generate_cross_language_insights_ok A B HA HB) as [ins ->].
  eexists. split; [done|]. simpl.
  assert (∀ X Y : gset string, X ∩ Y ∪ X ∖ Y = X) as Hsplit.
  { intros X Y. apply set_eq. intros x.
    rewrite elem_of_union, elem_of_intersection, elem_of_difference.
    destruct (decide (x ∈ Y)); tauto. }
  split; [apply Hsplit|].
  split; [rewrite (comm_L (∩) (patterns_of A) (patterns_of B)); apply Hsplit|].
  repeat split; set_solver.
Qed.

Lemma unique_sets_partition_witness :
  ∃ rep,
    generate_cross_language_insights scenario4_A scenario4_B = Ok rep
    ∧ common_patterns rep ∪ python_unique rep = patterns_of scenario4_A
    ∧ common_patterns rep ∪ go_unique rep = patterns_of scenario4_B
    ∧ common_patterns rep ## python_unique rep
    ∧ common_patterns rep ## go_unique rep
    ∧ python_unique rep ## go_unique rep.
Proof. apply (unique_sets_partition scenario4_A scenario4_B); reflexivity. Defined.

(** X10. The similarity score is [0.0] when the two pattern sets share
    no tag, and [1.0] when they are equal and not empty. *)
Theorem similarity_boundaries (A B : gmap string value) :
  is_analysis_result A = true → is_analysis_result B = true →
  ∃ rep,
    generate_cross_language_insights A B = Ok rep
    ∧ (patterns_of A ## patterns_of B → similarity_score rep = 0%float)
    ∧ (patterns_of A = patterns_of B → patterns_of A ≠ ∅ →
       similarity_score rep = 1%float).
Proof.
  intros HA HB.
  destruct (generate_cross_language_insights_ok A B HA HB) as [ins ->].
  eexists. split; [done|]. simpl. unfold similarity_spec. split.
  - intros ->%disjoint_intersection_L. rewrite size_empty.
    apply nearest_quotient_zero. lia.
  - intros <- Hne. rewrite (idemp_L (∩) (patterns_of A)).
    assert (size (patterns_of A) ≠ 0%nat) as Hpos
      by (by rewrite size_non_empty_iff, leibniz_equiv_iff).
    replace (Z.max _ 1) with (Z.of_nat (size (patterns_of A))) by lia.
    apply nearest_quotient_diag. lia.
Qed.

Lemma similarity_boundaries_witness :
  ∃ rep,
    generate_cross_language_insights scenario4_A scenario4_A = Ok rep
    ∧ similarity_score rep = 1%float.
Proof.
  destruct (similarity_boundaries scenario4_A scenario4_A eq_refl eq_refl)
    as (rep & Hrep & _ & Hone).
  exists rep. split; [exact Hrep|]. apply Hone; [reflexivity|].
  intros H. by apply (f_equal size) in H.
Defined.

(** X11. Comparing an analysis result with itself reports similar
    complexity, no unique pattern on either side, and every pattern as
    common: one insight line without patterns, two with. *)
Theorem self_comparison (A : gmap string value) :
  is_analysis_result A = true →
  ∃ rep,
    generate_cross_language_insights A A = Ok rep
    ∧ common_patterns rep = patterns_of A
    ∧ python_unique rep = ∅
    ∧ go_unique rep = ∅
    ∧ insights rep
      = SimilarComplexity
          :: (if decide (patterns_of A = ∅) then []
              else [CommonPatterns (patterns_of A)]).
Proof.
  intros HA.
  destruct (generate_cross_language_insights_explicit A A HA HA)
    as (na & nb & Hna & Hnb & ->).
  rewrite Hna in Hnb. injection Hnb as <-.
  eexists. split; [done|]. simpl.
  rewrite (idemp_L (∩) (patterns_of A)), difference_diag_L, Z.ltb_irrefl.
  repeat split. unfold append_if_nonempty.
  rewrite (decide_True (P := (∅ : gset string) = ∅)) by done.
  by destruct (decide (patterns_of A = ∅)).
Qed.

Lemma self_comparison_witness :
  ∃ rep,
    generate_cross_language_insights scenario4_A scenario4_A = Ok rep
    ∧ common_patterns rep = patterns_of scenario4_A
    ∧ python_unique rep = ∅
    ∧ go_unique rep = ∅
    ∧ insights rep
      = SimilarComplexity
          :: (if decide (patterns_of scenario4_A = ∅) then []
              else [CommonPatterns (patterns_of scenario4_A)]).
Proof. apply (self_comparison scenario4_A). reflexivity. Defined.

(** X12. The design patterns are listed in the order [worker_pool],
    [pipeline], [producer_consumer], [singleton], each at most once, and
    [pattern_count] is their number. [pipeline] is listed exactly when
    the text contains [chan] and [select], [producer_consumer] exactly
    when it contains [Producer] and [Consumer], and [singleton] exactly
    when it contains [sync.Once] or, in lower case, both [once] and
    [do]. *)
Theorem design_patterns_characterised (code_content : string) :
  ∃ l,
    extract_design_patterns code_content !! "design_patterns" = Some (VList l)
    ∧ extract_design_patterns code_content !! "pattern_count" = Some (VInt (len l))
    ∧ l `sublist_of` ["worker_pool"; "pipeline"; "producer_consumer"; "singleton"]
    ∧ ("pipeline" ∈ l
       ↔ occurs_in "chan" code_content ∧ occurs_in "select" code_content)
    ∧ ("producer_consumer" ∈ l
       ↔ occurs_in "Producer" code_content ∧ occurs_in "Consumer" code_content)
    ∧ ("singleton" ∈ l
       ↔ occurs_in "sync.Once" code_content
         ∨ occurs_in "once" (lower code_content)
           ∧ occurs_in "do" (lower code_content)).
Proof.
  exists (design_patterns_of code_content).
  split; [done|]. split; [done|]. split; [apply design_patterns_sublist|].
  unfold design_patterns_of. cbv zeta. rewrite !elem_of_append_if.
  rewrite <- !contains_spec, ?orb_true_iff, ?andb_true_iff.
  destruct (forallb _ _);
    rewrite ?list_elem_of_singleton, ?elem_of_nil; intuition congruence.
Qed.

(** X13. The Python analysis marks its result with the language
    [python] and lists the Python patterns in the order
    [async_function], [await_usage], [decorator_usage],
    [generator_pattern], each at most once and each exactly when the
    text contains [async def], [await ], [@] and [yield]. *)
Theorem python_patterns_characterised (code_content : string) :
  ∃ d l,
    analyze_python_code code_content = Ok d
    ∧ d !! "language" = Some (VStr "python")
    ∧ d !! "python_patterns" = Some (VList l)
    ∧ l `sublist_of` ["async_function"; "await_usage"; "decorator_usage";
                      "generator_pattern"]
    ∧ ("async_function" ∈ l ↔ occurs_in "async def" code_content)
    ∧ ("await_usage" ∈ l ↔ occurs_in "await " code_content)
    ∧ ("decorator_usage" ∈ l ↔ occurs_in "@" code_content)
    ∧ ("generator_pattern" ∈ l ↔ occurs_in "yield" code_content).
Proof.
  destruct (analyze_code_structure_fields code_content) as (st & base & _ & Hbase & _).
  unfold analyze_python_code. rewrite Hbase, bind_Ok.
  eexists _, (python_patterns_of code_content). split; [done|].
  split; [by rewrite lookup_insert_eq|].
  split; [by rewrite lookup_insert_ne, lookup_insert_eq|]. split.
  - unfold python_patterns_of, tag_if.
    destruct (contains code_content "async def"), (contains code_content "await "),
      (contains code_content "@"), (contains code_content "yield"); simpl;
      repeat first [apply sublist_nil | apply sublist_skip | apply sublist_cons].
  - unfold python_patterns_of. rewrite !elem_of_tag_if, !elem_of_nil.
    intuition congruence.
Qed.

(** X14. The Go analysis marks its result with the language [go] and
    lists the Go patterns in the order [generics_usage],
    [interface_definition], [defer_usage], [panic_recovery], each at
    most once; the last three are listed exactly when the text contains
    [interface{], [defer ] and [recover()]. *)
Theorem go_patterns_characterised (code_content : string) :
  ∃ d l,
    analyze_go_code code_content = Ok d
    ∧ d !! "language" = Some (VStr "go")
    ∧ d !! "go_patterns" = Some (VList l)
    ∧ l `sublist_of` ["generics_usage"; "interface_definition"; "defer_usage";
                      "panic_recovery"]
    ∧ ("interface_definition" ∈ l ↔ occurs_in "interface{" code_content)
    ∧ ("defer_usage" ∈ l ↔ occurs_in "defer " code_content)
    ∧ ("panic_recovery" ∈ l ↔ occurs_in "recover()" code_content).
Proof.
  destruct (analyze_code_structure_fields code_content) as (st & base & _ & Hbase & _).
  unfold analyze_go_code. rewrite Hbase, bind_Ok.
  eexists _, (go_patterns_of code_content). split; [done|].
  split; [by rewrite lookup_insert_eq|].
  split; [by rewrite lookup_insert_ne, lookup_insert_eq|]. split.
  - unfold go_patterns_of, tag_if.
    destruct (contains code_content "[" && contains code_content "]"
              && contains code_content "func"),
      (contains code_content "interface{"),
      (contains code_content "defer "), (contains code_content "recover()"); simpl;
      repeat first [apply sublist_nil | apply sublist_skip | apply sublist_cons].
  - unfold go_patterns_of. rewrite !elem_of_tag_if.
    destruct (contains code_content "[" && contains code_content "]"
              && contains code_content "func");
      rewrite ?list_elem_of_singleton, ?elem_of_nil; intuition congruence.
Qed.

Section handlers.
Variable json_dumps : action_result → string.
Variable str_exn : handler_exn → string.

(** X15. A request with a body that is not empty and data shorter than
    [2^63] characters is answered with 200: the job [job_<stamp>] is
    reported and stored as completed, with the action and the data of
    the request (or their defaults) and the serialized result;
    [get_job_status] then finds it, and every other job and every
    stored analysis is as before. *)
Theorem process_data_completes (d : gmap string string) (stamp : Z)
    (now : float) (st : store) :
  d ≠ ∅ →
  Z.of_nat (String.length (default "" (d !! "data"))) < 2 ^ 63 →
  ∃ result st',
    run_action (default "analyze" (d !! "action")) (default "" (d !! "data"))
    = Ok result
    ∧ process_data json_dumps str_exn (Some d) stamp now st
      = (JobDone ("job_" +:+ str_int stamp) "completed" result, 200, st')
    ∧ get_job_status ("job_" +:+ str_int stamp) st'
      = (JobFound
           (mkJob ("job_" +:+ str_int stamp)
              (default "analyze" (d !! "action")) (default "" (d !! "data"))
              now "completed" (Some (json_dumps result))),
         200)
    ∧ (∀ other, other ≠ "job_" +:+ str_int stamp →
         get_job_status other st' = get_job_status other st)
    ∧ analysis_results st' = analysis_results st.
Proof.
  intros Hd Hlen.
  destruct (run_action_ok (default "analyze" (d !! "action")) _ Hlen)
    as [result Hresult].
  exists result. eexists. split; [done|]. unfold process_data.
  rewrite decide_False by done. cbv zeta. rewrite Hresult.
  split; [done|]. unfold get_job_status. simpl.
  split; [by rewrite lookup_insert_eq|]. split; [|done].
  intros other Hother. by rewrite lookup_insert_ne.
Qed.


(** X17. An action that is none of [analyze], [extract_patterns] and
    [generate_report] is no HTTP error: the request is answered with
    200, and its job is stored as completed with the result
    [{"error": "Unknown action: <action>"}]. *)
Theorem process_data_unknown_action (d : gmap string string) (action : string)
    (stamp : Z) (now : float) (st : store) :
  d !! "action" = Some action →
  action ≠ "analyze" → action ≠ "extract_patterns" →
  action ≠ "generate_report" →
  process_data json_dumps str_exn (Some d) stamp now st
  = (JobDone ("job_" +:+ str_int stamp) "completed"
       (DictResult {["error" := VStr ("Unknown action: " +:+ action)]}),
     200,
     mkStore
       (<["job_" +:+ str_int stamp :=
            mkJob ("job_" +:+ str_int stamp) action (default "" (d !! "data"))
              now "completed"
              (Some (json_dumps
                       (DictResult
                          {["error" := VStr ("Unknown action: " +:+ action)]})))]>
          (processing_jobs st))
       (analysis_results st)).
Proof.
  intros Haction H1 H2 H3. unfold process_data.
  rewrite decide_False by (intros ->; by rewrite lookup_empty in Haction).
  cbv zeta. rewrite Haction. simpl default. unfold run_action.
  apply String.eqb_neq in H1, H2, H3. by rewrite H1, H2, H3.
Qed.

(** X18. Job ids are per second: a second request with the same value of
    [int(time.time())] replaces the job of the first, so the stores end
    as if the first request had never been made. *)
Theorem same_second_replaces (data1 : option (gmap string string))
    (d2 : gmap string string) (stamp : Z) (now1 now2 : float) (st : store) :
  d2 ≠ ∅ →
  (process_data json_dumps str_exn (Some d2) stamp now2
     (process_data json_dumps str_exn data1 stamp now1 st).2).2
  = (process_data json_dumps str_exn (Some d2) stamp now2 st).2.
Proof.
  intros Hd2.
  assert (∀ st0, (process_data json_dumps str_exn (Some d2) stamp now2 st0).2
                 = mkStore
                     (<["job_" +:+ str_int stamp :=
                          (match run_action (default "analyze" (d2 !! "action"))
                                   (default "" (d2 !! "data")) with
                           | Ok result =>
                               mkJob ("job_" +:+ str_int stamp)
                                 (default "analyze" (d2 !! "action"))
                                 (default "" (d2 !! "data")) now2 "completed"
                                 (Some (json_dumps result))
                           | Raise _ =>
                               mkJob ("job_" +:+ str_int stamp)
                                 (default "analyze" (d2 !! "action"))
                                 (default "" (d2 !! "data")) now2 "pending" None
                           end)]> (processing_jobs st0))
                     (analysis_results st0)) as Hsecond.
  { intros st0. unfold process_data. rewrite decide_False by done. cbv zeta.
    by destruct (run_action _ _). }
  rewrite !Hsecond. unfold process_data. destruct data1 as [d1|]; [|done].
  destruct (decide (d1 = ∅)); [done|]. cbv zeta.
  destruct (run_action (default "analyze" (d1 !! "action")) _); simpl;
    by rewrite insert_insert_eq.
Qed.

(** X19. Requests made in different seconds do not disturb each other:
    after a later request with another value of [int(time.time())] the
    job of the earlier request is still found, unchanged. *)
Theorem different_seconds_keep (data2 : option (gmap string string))
    (stamp1 stamp2 : Z) (now2 : float) (st : store) :
  stamp1 ≠ stamp2 →
  get_job_status ("job_" +:+ str_int stamp1)
    (process_data json_dumps str_exn data2 stamp2 now2 st).2
  = get_job_status ("job_" +:+ str_int stamp1) st.
Proof.
  intros Hne.
  assert ("job_" +:+ str_int stamp2 ≠ "job_" +:+ str_int stamp1) as Hid.
  { intros H%prefixed_inj%str_int_inj. congruence. }
  unfold process_data, get_job_status. destruct data2 as [d2|]; [|done].
  destruct (decide (d2 = ∅)); [done|]. cbv zeta.
  destruct (run_action _ _); simpl; by rewrite lookup_insert_ne.
Qed.

(** X20. [analyze_by_language] matches the language without regard to
    case. For Python or Go, in any spelling, it answers 200 and stores
    the analysis under [analysis_<stamp>], where [get_analysis_results]
    finds it: the stored record counts the entities and relationships of
    the structure analysis and holds its base patterns, and it keeps the
    language as the caller spelled it, while the details carry it in
    lower case. No job is touched. *)
Theorem analyze_by_language_stores (language : string)
    (d : gmap string string) (start_time end_time : float) (stamp : Z)
    (st : store) :
  lower language = "python" ∨ lower language = "go" →
  ∃ base es rs X details analysis st',
    analyze_code_structure (default "" (d !! "code")) = Ok base
    ∧ base !! "entities" = Some (VEntities es)
    ∧ base !! "relationships" = Some (VRelationships rs)
    ∧ base !! "patterns" = Some (VSet X)
    ∧ analyze_by_language str_exn language (Some d) start_time end_time stamp st
      = (LanguageDone ("analysis_" +:+ str_int stamp) language
           (end_time - start_time)%float analysis details,
         200, st')
    ∧ details !! "language" = Some (VStr (lower language))
    ∧ analysis
      = mkAnalysisResult ("analysis_" +:+ str_int stamp) (VInt (len es))
          (VInt (len rs)) language (end_time - start_time)%float (VSet X)
    ∧ get_analysis_results ("analysis_" +:+ str_int stamp) st'
      = (AnalysisFound analysis, 200)
    ∧ processing_jobs st' = processing_jobs st.
Proof.
  intros Hlang.
  destruct (analyze_code_structure_fields (default "" (d !! "code")))
    as (sc & base & _ & Hbase & Hec & Hrc & He & Hr & Hp & _).
  exists base, (entities sc), (relationships sc). eexists.
  unfold analyze_by_language, analyze_python_code, analyze_go_code.
  rewrite Hbase, !bind_Ok.
  destruct Hlang as [-> | ->]; simpl String.eqb; cbv iota zeta beta;
    (eexists _, _, _; split; [done|]; split; [done|]; split; [done|];
     split; [exact Hp|]; split; [reflexivity|];
     split; [by rewrite lookup_insert_eq|]; split;
     [unfold get; rewrite !lookup_insert_ne, Hec, Hrc, Hp by done; done|];
     split; [|done];
     unfold get_analysis_results; simpl; rewrite lookup_insert_eq;
     unfold get; by rewrite !lookup_insert_ne, Hec, Hrc, Hp by done).
Qed.

(** X21. Any other language is refused with 400 and the message
    [Unsupported language: <language>], whatever the body holds, and the
    stores are left as they were. *)
Theorem analyze_by_language_unsupported (language : string)
    (d : gmap string string) (start_time end_time : float) (stamp : Z)
    (st : store) :
  lower language ≠ "python" → lower language ≠ "go" →
  analyze_by_language str_exn language (Some d) start_time end_time stamp st
  = (LanguageError ("Unsupported language: " +:+ language), 400, st).
Proof.
  intros H1%String.eqb_neq H2%String.eqb_neq. unfold analyze_by_language.
  by rewrite H1, H2.
Qed.

(** X22. The two handlers treat a missing body differently:
    [analyze_by_language] fails with 500 on a missing body, whatever the
    language, and analyses the empty text when the body has no [code],
    recording zero entities and zero relationships, where [process_data]
    answers 400 in both cases. *)
Theorem analyze_by_language_body (language : string) (d : gmap string string)
    (start_time end_time : float) (stamp : Z) (st : store) :
  analyze_by_language str_exn language None start_time end_time stamp st
  = (LanguageError (str_exn NoneHasNoGet), 500, st)
  ∧ (lower language = "python" ∨ lower language = "go" →
     d !! "code" = None →
     ∃ details analysis st',
       analyze_by_language str_exn language (Some d) start_time end_time stamp st
       = (LanguageDone ("analysis_" +:+ str_int stamp) language
            (end_time - start_time)%float analysis details,
          200, st')
       ∧ ar_entities_found analysis = VInt 0
       ∧ ar_relationships_found analysis = VInt 0
       ∧ ar_patterns analysis = VSet ∅).
Proof.
  split; [done|]. intros Hlang Hcode. unfold analyze_by_language.
  rewrite Hcode. destruct Hlang as [-> | ->]; by eexists _, _, _.
Qed.


(** X24. When the Go service answers 200 with an analysis result that is
    not empty and the body is an object, the synchronization answers
    200 with the structure analysis of the code, the answer of Go as it
    came, and the insights of the two: the common patterns and the
    patterns unique to each side. *)
Theorem sync_succeeds (d : gmap string string) (go : gmap string value) :
  go ≠ ∅ → Spec.is_analysis_result go = true →
  ∃ python_analysis X insights,
    analyze_code_structure (default "" (d !! "code")) = Ok python_analysis
    ∧ python_analysis !! "patterns" = Some (VSet X)
    ∧ synchronize_with_go_service str_exn (Some d) (Replied 200 go)
      = (SyncDone python_analysis go insights "success", 200)
    ∧ common_patterns insights = X ∩ patterns_of go
    ∧ python_unique insights = X ∖ patterns_of go
    ∧ go_unique insights = patterns_of go ∖ X.
Proof.
  intros Hgo Hres.
  destruct (analyze_code_structure_fields (default "" (d !! "code")))
    as (sc & pa & _ & Hpa & Hec & _ & _ & _ & Hp & _).
  assert (Spec.is_analysis_result pa = true) as Hpares
    by (unfold Spec.is_analysis_result; by rewrite Hec, Hp).
  destruct (generate_cross_language_insights_ok pa go Hpares Hres) as [ins Hins].
  assert (patterns_of pa
          = list_to_set (common_patterns_of (default "" (d !! "code"))
                           (Service.patterns sc))) as Hpats
    by (unfold patterns_of; by rewrite Hp).
  eexists pa, _, _. split; [done|]. split; [exact Hp|].
  unfold synchronize_with_go_service, call_go_service. simpl.
  rewrite decide_False by done. rewrite Hpa, bind_Ok, Hins, bind_Ok.
  split; [done|]. simpl. by rewrite Hpats.
Qed.

End handlers.

Lemma process_data_completes_witness :
  ∃ result st',
    run_action (default "analyze" (go_request !! "action"))
      (default "" (go_request !! "data"))
    = Ok result
    ∧ process_data no_dumps no_str (Some go_request) 7 0 empty_store
      = (JobDone ("job_" +:+ str_int 7) "completed" result, 200, st')
    ∧ get_job_status ("job_" +:+ str_int 7) st'
      = (JobFound
           (mkJob ("job_" +:+ str_int 7)
              (default "analyze" (go_request !! "action"))
              (default "" (go_request !! "data"))
              0 "completed" (Some (no_dumps result))),
         200)
    ∧ (∀ other, other ≠ "job_" +:+ str_int 7 →
         get_job_status other st' = get_job_status other empty_store)
    ∧ analysis_results st' = analysis_results empty_store.
Proof.
  apply (process_data_completes no_dumps no_str go_request 7 0 empty_store);
    [apply map_non_empty_singleton | reflexivity].
Defined.

Lemma process_data_unknown_action_witness :
  process_data no_dumps no_str (Some delete_request) 7 0 empty_store
  = (JobDone ("job_" +:+ str_int 7) "completed"
       (DictResult {["error" := VStr ("Unknown action: " +:+ "delete")]}),
     200,
     mkStore
       (<["job_" +:+ str_int 7 :=
            mkJob ("job_" +:+ str_int 7) "delete"
              (default "" (delete_request !! "data")) 0 "completed"
              (Some (no_dumps
                       (DictResult
                          {["error" := VStr ("Unknown action: " +:+ "delete")]})))]>
          (processing_jobs empty_store))
       (analysis_results empty_store)).
Proof.
  apply (process_data_unknown_action no_dumps no_str delete_request "delete" 7 0
           empty_store); [reflexivity | discriminate..].
Defined.

Lemma same_second_replaces_witness :
  (process_data no_dumps no_str (Some other_request) 7 1
     (process_data no_dumps no_str (Some go_request) 7 0 empty_store).2).2
  = (process_data no_dumps no_str (Some other_request) 7 1 empty_store).2.
Proof.
  apply (same_second_replaces no_dumps no_str (Some go_request) other_request
           7 0 1 empty_store).
  apply map_non_empty_singleton.
Defined.

Lemma different_seconds_keep_witness :
  get_job_status ("job_" +:+ str_int 7)
    (process_data no_dumps no_str (Some other_request) 8 1 empty_store).2
  = get_job_status ("job_" +:+ str_int 7) empty_store.
Proof.
  apply (different_seconds_keep no_dumps no_str (Some other_request) 7 8 1
           empty_store).
  lia.
Defined.

Lemma analyze_by_language_stores_witness :
  ∃ base es rs X details analysis st',
    analyze_code_structure (default "" (code_request !! "code")) = Ok base
    ∧ base !! "entities" = Some (VEntities es)
    ∧ base !! "relationships" = Some (VRelationships rs)
    ∧ base !! "patterns" = Some (VSet X)
    ∧ analyze_by_language no_str "Python" (Some code_request) 1 3 7 empty_store
      = (LanguageDone ("analysis_" +:+ str_int 7) "Python" (3 - 1)%float analysis
           details,
         200, st')
    ∧ details !! "language" = Some (VStr (lower "Python"))
    ∧ analysis
      = mkAnalysisResult ("analysis_" +:+ str_int 7) (VInt (len es))
          (VInt (len rs)) "Python" (3 - 1)%float (VSet X)
    ∧ get_analysis_results ("analysis_" +:+ str_int 7) st'
      = (AnalysisFound analysis, 200)
    ∧ processing_jobs st' = processing_jobs empty_store.
Proof.
  apply (analyze_by_language_stores no_str "Python" code_request 1 3 7 empty_store).
  left. reflexivity.
Defined.

Lemma analyze_by_language_unsupported_witness :
  analyze_by_language no_str "Rust" (Some code_request) 1 3 7 empty_store
  = (LanguageError ("Unsupported language: " +:+ "Rust"), 400, empty_store).
Proof.
  apply (analyze_by_language_unsupported no_str "Rust" code_request 1 3 7
           empty_store); vm_compute; discriminate.
Defined.


Lemma sync_succeeds_witness :
  ∃ python_analysis X insights,
    analyze_code_structure (default "" (code_request !! "code"))
    = Ok python_analysis
    ∧ python_analysis !! "patterns" = Some (VSet X)
    ∧ synchronize_with_go_service no_str (Some code_request)
        (Replied 200 scenario4_B)
      = (SyncDone python_analysis scenario4_B insights "success", 200)
    ∧ common_patterns insights = X ∩ patterns_of scenario4_B
    ∧ python_unique insights = X ∖ patterns_of scenario4_B
    ∧ go_unique insights = patterns_of scenario4_B ∖ X.
Proof.
  apply (sync_succeeds no_str code_request scenario4_B);
    [apply insert_non_empty | reflexivity].
Defined.

End Extras.
